(** * themoneygps: caption normalisation, base-name resolution, index derivation

    A shallow embedding of the pure parts of
      - [convert_vtt_to_txt.py]: [clean_vtt_to_txt],
        [get_base_filename_without_known_extensions];
      - [create_search_index.py]: [extract_info_from_filename];
    followed by the properties the specification states about them.

    Python [str] values are modelled by [string]; a character is a code
    point in the range 0..255, and the character classes below are Python's
    own ([str.isspace], the regular-expression classes [\s] and [\d],
    [str.lower]) on that range.  Regular expressions are translated by hand,
    each next to the pattern it stands for. *)

From Stdlib Require Import List Bool Arith ZArith Lia Ascii String.
Import ListNotations.
Open Scope string_scope.

(** ** Characters *)

(** Line feed, the one character the pattern [.] refuses. *)
Definition LF : ascii := "010"%char.

(** [str.isspace] and [\s]: TAB..CR, FS..US, SPACE, NEL and NBSP. *)
Definition isspace (c : ascii) : bool :=
  let n := nat_of_ascii c in
  (((9 <=? n) && (n <=? 13)) || ((28 <=? n) && (n <=? 32))
   || (n =? 133) || (n =? 160))%nat.

(** [\d]: the decimal digits. *)
Definition isdigit (c : ascii) : bool :=
  let n := nat_of_ascii c in ((48 <=? n) && (n <=? 57))%nat.

(** [str.lower] on one character: A..Z, and the upper-case letters of the
    Latin-1 supplement (all of 192..222 except the multiplication sign). *)
Definition lower_char (c : ascii) : ascii :=
  let n := nat_of_ascii c in
  if (((65 <=? n) && (n <=? 90))
      || ((192 <=? n) && (n <=? 222) && negb (n =? 215)))%nat
  then ascii_of_nat (n + 32) else c.

(** ** Strings *)

(** [s.lower()] *)
Fixpoint lower (s : string) : string :=
  match s with
  | EmptyString => EmptyString
  | String c s' => String (lower_char c) (lower s')
  end.

(** [s[:n]] for [0 <= n] *)
Fixpoint take (n : nat) (s : string) : string :=
  match n, s with
  | S n', String c s' => String c (take n' s')
  | _, _ => EmptyString
  end.

(** [s[n:]] for [0 <= n] *)
Fixpoint drop (n : nat) (s : string) : string :=
  match n, s with
  | S n', String _ s' => drop n' s'
  | _, _ => s
  end.

(** [s[:-n]] for [0 < n]: everything but the last [n] characters, and the
    empty string when there are fewer than [n]. *)
Definition drop_last (n : nat) (s : string) : string :=
  take (length s - n) s.

(** [s.startswith(p)] *)
Fixpoint startswith (s p : string) {struct p} : bool :=
  match p, s with
  | EmptyString, _ => true
  | String a p', String b s' => Ascii.eqb b a && startswith s' p'
  | String _ _, EmptyString => false
  end.

(** [s.endswith(p)] *)
Definition endswith (s p : string) : bool :=
  (length p <=? length s)%nat && (drop (length s - length p) s =? p).

(** [s.lstrip()], [s.rstrip()] and [s.strip()] *)
Fixpoint lstrip (s : string) : string :=
  match s with
  | EmptyString => EmptyString
  | String c s' => if isspace c then lstrip s' else s
  end.

Fixpoint rstrip (s : string) : string :=
  match s with
  | EmptyString => EmptyString
  | String c s' =>
      match rstrip s' with
      | EmptyString => if isspace c then EmptyString else String c EmptyString
      | r => String c r
      end
  end.

Definition strip (s : string) : string := rstrip (lstrip s).

(** [s.replace(a, b)] for single characters *)
Fixpoint replace_char (a b : ascii) (s : string) : string :=
  match s with
  | EmptyString => EmptyString
  | String c s' => String (if Ascii.eqb c a then b else c) (replace_char a b s')
  end.

(** [sep.join(l)] *)
Definition join (sep : string) (l : list string) : string := concat sep l.

(** Every character of [s] satisfies [p]. *)
Fixpoint all_chars (p : ascii -> bool) (s : string) : bool :=
  match s with
  | EmptyString => true
  | String c s' => p c && all_chars p s'
  end.

(** ** Regular expressions

    A pattern piece consumes a prefix of its input and returns what is
    left, or fails.  The pieces used here never need backtracking: what
    follows a greedy repetition cannot start with a character of the
    repeated class. *)

Definition matcher := string -> option string.

Definition andthen (m1 m2 : matcher) : matcher :=
  fun s => match m1 s with Some r => m2 r | None => None end.

Notation "m1 ;; m2" := (andthen m1 m2) (at level 61, right associativity).

(** A literal. *)
Definition lit (p : string) : matcher :=
  fun s => if startswith s p then Some (drop (length p) s) else None.

(** [\d{n}] *)
Fixpoint digits (n : nat) : matcher :=
  fun s =>
    match n with
    | 0 => Some s
    | S n' =>
        match s with
        | String c s' => if isdigit c then digits n' s' else None
        | EmptyString => None
        end
    end.

(** [\s+] *)
Definition spaces1 : matcher :=
  fun s =>
    match s with
    | String c s' => if isspace c then Some (lstrip s') else None
    | EmptyString => None
    end.

(** [\d{2}:\d{2}:\d{2}\.\d{3}] *)
Definition timestamp : matcher :=
  digits 2 ;; lit ":" ;; digits 2 ;; lit ":" ;; digits 2 ;; lit "." ;; digits 3.

(** [re.match(r"^\d{2}:\d{2}:\d{2}\.\d{3}\s+-->\s+\d{2}:\d{2}:\d{2}\.\d{3}", line)] *)
Definition is_timing_line (line : string) : bool :=
  match (timestamp ;; spaces1 ;; lit "-->" ;; spaces1 ;; timestamp) line with
  | Some _ => true
  | None => false
  end.

(** The rest of [s] after its leading digits. *)
Fixpoint skip_digits (s : string) : string :=
  match s with
  | EmptyString => EmptyString
  | String c s' => if isdigit c then skip_digits s' else s
  end.

(** [re.match(r"^\d+$", line)]: at least one digit, then the end of the
    string, or a line feed that ends the string. *)
Definition is_sequence_number (line : string) : bool :=
  match line with
  | EmptyString => false
  | String c _ =>
      isdigit c &&
      let r := skip_digits line in (r =? "") || (r =? String LF "")
  end.

(** [[^>]+>] after an opening bracket: one character that is not [>], then
    any more of them, then [>].  Returns what follows the closing bracket. *)
Fixpoint after_close (s : string) : option string :=
  match s with
  | EmptyString => None
  | String c s' => if Ascii.eqb c ">" then Some s' else after_close s'
  end.

Definition tag_body : matcher :=
  fun s =>
    match s with
    | EmptyString => None
    | String c s' => if Ascii.eqb c ">" then None else after_close s'
    end.

(** [re.sub(r"<[^>]+>", "", s)]: scanning from the left, a tag that starts
    at the current character is dropped and the scan resumes behind it;
    otherwise the character is kept.  The recursion resumes on a suffix, so
    it is driven by a counter that [strip_tags] sets to the length. *)
Fixpoint sub_tags (fuel : nat) (s : string) : string :=
  match fuel with
  | 0 => EmptyString
  | S fuel' =>
      match s with
      | EmptyString => EmptyString
      | String c s' =>
          if Ascii.eqb c "<" then
            match tag_body s' with
            | Some rest => sub_tags fuel' rest
            | None => String c (sub_tags fuel' s')
            end
          else String c (sub_tags fuel' s')
      end
  end.

Definition strip_tags (s : string) : string := sub_tags (length s) s.

(** The first character of [s] is a white-space character. *)
Definition starts_with_space (s : string) : bool :=
  match s with
  | String c _ => isspace c
  | EmptyString => false
  end.

(** [re.sub(r"\s+", " ", s)]: a white-space character followed by another
    one is inside a run and yields nothing; the last one of a run yields
    the single space. *)
Fixpoint collapse_ws (s : string) : string :=
  match s with
  | EmptyString => EmptyString
  | String c s' =>
      if isspace c then
        if starts_with_space s' then collapse_ws s'
        else String " " (collapse_ws s')
      else String c (collapse_ws s')
  end.

(** [re.sub(r"\s+", " ", s).strip()] *)
Definition normalize_ws (s : string) : string := strip (collapse_ws s).

(** ** The caption normaliser: [clean_vtt_to_txt] *)

(** The three variables the loop over the lines updates. *)
Record state := mkState {
  cleaned_segments : list string;
  in_style_block : bool;
  last_added_segment : option string
}.

Definition initial_state : state := mkState [] false None.

(** [current_segment != last_added_segment], where the right-hand side is
    [None] or a string. *)
Definition differs_from (seg : string) (last : option string) : bool :=
  match last with
  | None => true
  | Some l => negb (seg =? l)
  end.

(** One iteration of [for line in lines]; every [continue] returns the
    state it was given. *)
Definition process_line (st : state) (raw : string) : state :=
  let line := strip raw in
  if (line =? "") || (line =? "WEBVTT")
     || startswith (lower line) "kind:"
     || startswith (lower line) "language:" then st
  else if startswith line "NOTE" then st
  else if startswith line "STYLE" then
    mkState (cleaned_segments st) true (last_added_segment st)
  else if in_style_block st && (line =? "") then
    mkState (cleaned_segments st) false (last_added_segment st)
  else if in_style_block st then st
  else if is_timing_line line then st
  else if is_sequence_number line then st
  else
    let current_segment := strip (strip_tags line) in
    if negb (current_segment =? "")
       && differs_from current_segment (last_added_segment st)
    then mkState (cleaned_segments st ++ [current_segment])
                 (in_style_block st) (Some current_segment)
    else st.

(** The state after the whole loop. *)
Definition run (lines : list string) : state :=
  fold_left process_line lines initial_state.

(** The accepted segments, before they are joined. *)
Definition segments (lines : list string) : list string :=
  cleaned_segments (run lines).

(** The part of [clean_vtt_to_txt] after the file was read. *)
Definition clean_lines (lines : list string) : string :=
  normalize_ws (join " " (segments lines)).

(** What [open(path, "r", encoding="utf-8")] and [f.readlines()] give: the
    lines, each with its line terminator, or an exception. *)
Inductive read_result :=
| Lines (lines : list string)
| Raised (e : string).

Definition filesystem := string -> read_result.

(** [clean_vtt_to_txt]: [None] is Python's [None]; the diagnostic that the
    [except] branch prints is left out. *)
Definition clean_vtt_to_txt (fs : filesystem) (input_vtt_path : string)
  : option string :=
  match fs input_vtt_path with
  | Raised _ => None
  | Lines lines => Some (clean_lines lines)
  end.

(** ** The base-name resolver: [get_base_filename_without_known_extensions] *)

Definition known_extensions : list string := [".vtt"].

Definition known_lang_codes : list string :=
  [".en"; ".es"; ".fr"; ".de"; ".it"; ".pt"; ".ru"; ".ja"; ".ko"; ".zh"].

(** [for ext in suffixes: if base_name.lower().endswith(ext):
       base_name = base_name[:-len(ext)]; break] *)
Fixpoint remove_one_suffix (suffixes : list string) (base_name : string)
  : string :=
  match suffixes with
  | [] => base_name
  | ext :: rest =>
      if endswith (lower base_name) ext then drop_last (length ext) base_name
      else remove_one_suffix rest base_name
  end.

Definition get_base_filename_without_known_extensions (filename : string)
  : string :=
  let base_name := filename in
  let base_name := remove_one_suffix known_extensions base_name in
  let base_name := remove_one_suffix known_lang_codes base_name in
  base_name.

(** ** The index builder's derivation: [extract_info_from_filename] *)

(** The end of the file-name pattern, a group of any characters (greedy,
    [.*]) followed by the literal [.txt]: the group takes as many
    characters other than a line feed as it can and gives them back one by
    one until [.txt] follows.  Returns the group. *)
Fixpoint dotstar_txt (s : string) : option string :=
  match s with
  | EmptyString => None
  | String c s' =>
      match (if Ascii.eqb c LF then None else dotstar_txt s') with
      | Some g => Some (String c g)
      | None => if startswith s ".txt" then Some EmptyString else None
      end
  end.

(** [re.match] of the file name against the pattern, written here with
    blanks between its pieces, [TheMoneyGPS_ (\d{8}) _ ( .* ) \.txt]: the
    two groups of the match, if there is one. *)
Definition match_filename (filename : string) : option (string * string) :=
  match lit "TheMoneyGPS_" filename with
  | None => None
  | Some r1 =>
      match (digits 8 ;; lit "_") r1 with
      | None => None
      | Some r2 =>
          match dotstar_txt r2 with
          | None => None
          | Some g2 => Some (take 8 r1, g2)
          end
      end
  end.

(** [s.rfind(c)], with -1 when [c] does not occur. *)
Fixpoint rfind (s : string) (c : ascii) : Z :=
  match s with
  | EmptyString => (-1)%Z
  | String a s' =>
      let r := rfind s' c in
      if (0 <=? r)%Z then (r + 1)%Z
      else if Ascii.eqb a c then 0%Z else (-1)%Z
  end.

(** [p[i:j]] for [0 <= i] *)
Definition slice (i j : nat) (p : string) : string := take (j - i) (drop i p).

(** [os.path.splitext] (posixpath: separator [/], no alternative
    separator): the last dot splits the name when it comes after the last
    separator and is not one of the dots the file name begins with. *)
Definition splitext (p : string) : string * string :=
  let sepIndex := rfind p "/" in
  let dotIndex := rfind p "." in
  if (sepIndex <? dotIndex)%Z then
    let filenameIndex := (sepIndex + 1)%Z in
    if all_chars (fun c => Ascii.eqb c ".")
         (slice (Z.to_nat filenameIndex) (Z.to_nat dotIndex) p)
    then (p, EmptyString)
    else (take (Z.to_nat dotIndex) p, drop (Z.to_nat dotIndex) p)
  else (p, EmptyString).

(** [f"{date_str[:4]}-{date_str[4:6]}-{date_str[6:]}"]; slices never raise,
    so the [except IndexError] branch is dead. *)
Definition format_date (date_str : string) : string :=
  take 4 date_str ++ "-" ++ slice 4 6 date_str ++ "-" ++ drop 6 date_str.

Definition extract_info_from_filename (filename : string) : string * string :=
  match match_filename filename with
  | Some (date_str, g2) => (format_date date_str, replace_char "_" " " g2)
  | None => ("Unknown Date", fst (splitext filename))
  end.


(** ** The batch drivers: the two [main] functions *)

(** [os.path.join(a, b)] (posixpath) *)
Definition path_join (a b : string) : string :=
  if startswith b "/" then b
  else if (a =? "") || endswith a "/" then a ++ b
  else a ++ "/" ++ b.

(** What the drivers ask of the operating system: [os.path.isdir],
    whether [os.makedirs(d, exist_ok=True)] raises, [os.listdir] ([None]
    when it raises), [readlines] and [read] on a file opened for reading
    ([Raised], [None] when opening or reading raises), and whether opening
    a path for writing and writing a text to it raises. *)
Record os_env := mkEnv {
  os_isdir : string -> bool;
  os_makedirs_raises : string -> bool;
  os_listdir : string -> option (list string);
  os_readlines : filesystem;
  os_read : string -> option string;
  os_write_raises : string -> string -> bool
}.

(** How a driver ends: it returns, it calls [sys.exit], or an exception
    that nothing catches ends it. *)
Inductive outcome (A : Type) :=
| Finished (a : A)
| Exited (status : nat)
| Uncaught.

Arguments Finished {A} a.
Arguments Exited {A} status.
Arguments Uncaught {A}.

Module convert_vtt_to_txt.

(** The three counters of [main], and the writes that did not raise, in
    the order they were made (path and text). *)
Record report := mkReport {
  total_files : nat;
  converted_files : nat;
  skipped_files : nat;
  written : list (string * string)
}.

(** One iteration of [for filename in os.listdir(input_dir)]. *)
Definition convert_file (env : os_env) (input_dir output_dir : string)
  (r : report) (filename : string) : report :=
  if endswith (lower filename) ".vtt" then
    let total := total_files r + 1 in
    let input_vtt_path := path_join input_dir filename in
    match clean_vtt_to_txt (os_readlines env) input_vtt_path with
    | Some cleaned_text =>
        let base_name := get_base_filename_without_known_extensions filename in
        let output_filename := base_name ++ ".txt" in
        let output_txt_path := path_join output_dir output_filename in
        if os_write_raises env output_txt_path cleaned_text then
          mkReport total (converted_files r) (skipped_files r + 1) (written r)
        else
          mkReport total (converted_files r + 1) (skipped_files r)
                   (written r ++ [(output_txt_path, cleaned_text)])
    | None =>
        mkReport total (converted_files r) (skipped_files r + 1) (written r)
    end
  else r.

(** [main], without what it prints; [script_dir] is the directory of the
    script. *)
Definition main (env : os_env) (script_dir : string) : outcome report :=
  let input_dir := path_join script_dir "transcripts" in
  let output_dir := path_join script_dir "clean_txt" in
  if negb (os_isdir env input_dir) then Exited 1
  else if os_makedirs_raises env output_dir then Uncaught
  else
    match os_listdir env input_dir with
    | None => Uncaught
    | Some names =>
        Finished (fold_left (convert_file env input_dir output_dir) names
                            (mkReport 0 0 0 []))
    end.

End convert_vtt_to_txt.

Module create_search_index.

(** One element of [search_data]: the dictionary with the keys
    [filename], [date], [title] and [text]. *)
Record index_record := mkRecord {
  entry_filename : string;
  entry_date : string;
  entry_title : string;
  entry_text : string
}.

(** The two variables the loop of [main] updates. *)
Record index := mkIndex {
  search_data : list index_record;
  file_count : nat
}.

(** One iteration of [for filename in os.listdir(input_dir)]. *)
Definition index_file (env : os_env) (input_dir : string)
  (ix : index) (filename : string) : index :=
  if endswith (lower filename) ".txt" then
    let file_path := path_join input_dir filename in
    match os_read env file_path with
    | Some text_content =>
        if negb (text_content =? "") then
          let (file_date, file_title) := extract_info_from_filename filename in
          mkIndex (search_data ix
                   ++ [mkRecord filename file_date file_title text_content])
                  (file_count ix + 1)
        else ix
    | None => ix
    end
  else ix.

(** [main] up to the end of its loop: what it prints and the final
    [json.dump] of [search_data] are left out. *)
Definition main (env : os_env) (script_dir : string) : outcome index :=
  let input_dir := path_join script_dir "clean_txt" in
  if negb (os_isdir env input_dir) then Exited 1
  else
    match os_listdir env input_dir with
    | None => Uncaught
    | Some names =>
        Finished (fold_left (index_file env input_dir) names (mkIndex [] 0))
    end.

End create_search_index.


(** ** Vocabulary of the statements *)

(** The last element of the accepted segments, [None] when there is none. *)
Fixpoint last_of (l : list string) : option string :=
  match l with
  | [] => None
  | [x] => Some x
  | _ :: t => last_of t
  end.

(** No two neighbours of the list are equal. *)
Fixpoint no_adjacent_dup (l : list string) : Prop :=
  match l with
  | a :: ((b :: _) as t) => a <> b /\ no_adjacent_dup t
  | _ => True
  end.

(** The loop invariant: [last_added_segment] is the last accepted segment,
    and no two neighbours among the accepted segments are equal. *)
Definition tracked (st : state) : Prop :=
  last_added_segment st = last_of (cleaned_segments st)
  /\ no_adjacent_dup (cleaned_segments st).

(** The line is not dismissed by any of the tests that come before the
    cue-text branch (the test for the empty line apart). *)
Definition kept_as_text (line : string) : bool :=
  negb ((line =? "WEBVTT")
        || startswith (lower line) "kind:"
        || startswith (lower line) "language:"
        || startswith line "NOTE"
        || startswith line "STYLE"
        || is_timing_line line
        || is_sequence_number line).

(** Any character but the line feed. *)
Definition not_lf (c : ascii) : bool := negb (Ascii.eqb c LF).

(** Any character but [c]. *)
Definition is_not (c : ascii) (a : ascii) : bool := negb (Ascii.eqb a c).

(** The string begins with a dot. *)
Definition starts_with_dot (s : string) : bool :=
  match s with
  | String c _ => Ascii.eqb c "."
  | EmptyString => false
  end.

(** The line is dismissed whatever the state: its trimmed form is empty,
    the header token, a metadata line, a comment, a timing line or a
    sequence number. *)
Definition noise_line (raw : string) : bool :=
  let line := strip raw in
  (line =? "") || (line =? "WEBVTT")
  || startswith (lower line) "kind:"
  || startswith (lower line) "language:"
  || startswith line "NOTE"
  || is_timing_line line
  || is_sequence_number line.

(** The last character of the string is a white-space character. *)
Fixpoint ends_with_space (s : string) : bool :=
  match s with
  | EmptyString => false
  | String c EmptyString => isspace c
  | String _ s' => ends_with_space s'
  end.

(** Every white-space character of the string is the space, and is not
    followed by a white-space character. *)
Fixpoint single_spaced (s : string) : bool :=
  match s with
  | EmptyString => true
  | String c s' =>
      (negb (isspace c) || (Ascii.eqb c " " && negb (starts_with_space s')))
      && single_spaced s'
  end.

(** The text holds no tag: [re.sub] of the tag pattern leaves it as it is. *)
Definition tag_free (s : string) : Prop := strip_tags s = s.

(** The name ends, in lower case, with one of the language codes. *)
Definition ends_with_lang_code (s : string) : bool :=
  existsb (endswith (lower s)) known_lang_codes.

(** The date the index shows for eight digits: [YYYY-MM-DD]. *)
Definition dashed_date (s : string) : Prop :=
  exists yyyy mm dd,
    s = yyyy ++ "-" ++ mm ++ "-" ++ dd
    /\ length yyyy = 4 /\ length mm = 2 /\ length dd = 2
    /\ all_chars isdigit (yyyy ++ mm ++ dd) = true.

(** What holds of a segment when it is accepted. *)
Definition accepted (seg : string) : Prop :=
  seg <> "" /\ strip seg = seg /\ tag_free seg.

(** A pattern piece that does not look at what follows the part it
    consumes. *)
Definition local_matcher (m : matcher) : Prop :=
  forall s r x, m s = Some r -> m (s ++ x) = Some (r ++ x).

(** The converter takes the file: its name ends with [.vtt] in lower
    case. *)
Definition is_vtt (filename : string) : bool :=
  endswith (lower filename) ".vtt".

(** The path the converter writes the text of a caption file to. *)
Definition output_path (output_dir filename : string) : string :=
  path_join output_dir
    (get_base_filename_without_known_extensions filename ++ ".txt").

(** What the normaliser returns for a file of the input directory. *)
Definition cleaned (env : os_env) (input_dir filename : string)
  : option string :=
  clean_vtt_to_txt (os_readlines env) (path_join input_dir filename).

(** The caption file is read and its text is written. *)
Definition converts (env : os_env) (input_dir output_dir filename : string)
  : bool :=
  is_vtt filename
  && match cleaned env input_dir filename with
     | Some text => negb (os_write_raises env (output_path output_dir filename) text)
     | None => false
     end.

(** Reading the caption file raises, or writing its text does. *)
Definition fails (env : os_env) (input_dir output_dir filename : string)
  : bool :=
  is_vtt filename
  && match cleaned env input_dir filename with
     | Some text => os_write_raises env (output_path output_dir filename) text
     | None => true
     end.

(** The write made for a caption file: path and text. *)
Definition written_entry (env : os_env) (input_dir output_dir filename : string)
  : string * string :=
  (output_path output_dir filename,
   match cleaned env input_dir filename with
   | Some text => text
   | None => EmptyString
   end).

(** The index takes the file: its name ends with [.txt] in lower case. *)
Definition is_txt (filename : string) : bool :=
  endswith (lower filename) ".txt".

(** The file gets an entry: the index takes it, it is read, and its text
    is not empty. *)
Definition indexed (env : os_env) (input_dir filename : string) : bool :=
  is_txt filename
  && match os_read env (path_join input_dir filename) with
     | Some text => negb (text =? "")
     | None => false
     end.

(** The entry the index makes for a file. *)
Definition record_of (env : os_env) (input_dir filename : string)
  : create_search_index.index_record :=
  create_search_index.mkRecord filename
    (fst (extract_info_from_filename filename))
    (snd (extract_info_from_filename filename))
    match os_read env (path_join input_dir filename) with
    | Some text => text
    | None => EmptyString
    end.

(** An operating system for the examples: the script lies in [/srv]; the
    input directory of the converter holds three caption files and a text
    file, and the second caption file cannot be read; the directory of the
    text files holds three files, the second one empty; nothing else
    raises. *)
Definition example_env : os_env :=
  mkEnv
    (fun _ => true)
    (fun _ => false)
    (fun d =>
       if d =? "/srv/transcripts" then
         Some ["TheMoneyGPS_20240102_Rates_Rise.en.vtt"; "broken.vtt";
               "abc123.txt"; "Silence.VTT"]
       else Some ["TheMoneyGPS_20240102_Rates_Rise.txt"; "Silence.txt";
                  "notes.TXT"])
    (fun p =>
       if p =? "/srv/transcripts/TheMoneyGPS_20240102_Rates_Rise.en.vtt" then
         Lines ["WEBVTT"; ""; "00:00:00.000 --> 00:00:02.000";
                "<c>rates</c> rise"; ""; "00:00:02.000 --> 00:00:04.000";
                "rates rise"; "again"]
       else if p =? "/srv/transcripts/broken.vtt" then Raised "PermissionError"
       else Lines ["WEBVTT"; ""])
    (fun p =>
       if p =? "/srv/clean_txt/TheMoneyGPS_20240102_Rates_Rise.txt" then
         Some "rates rise again"
       else if p =? "/srv/clean_txt/Silence.txt" then Some ""
       else Some "to do")
    (fun _ _ => false).

(** A line as [readlines] returns it, with its line terminator. *)
Definition nl (s : string) : string := s ++ String LF "".

(** * Properties *)

(** ** Characters and strings *)

Ltac each_char c :=
  destruct c as [[] [] [] [] [] [] [] []]; try discriminate; reflexivity.

Lemma digit_lower (c : ascii) : isdigit c = true -> lower_char c = c.
Proof. each_char c. Qed.

(** A digit is none of the characters the line classes start with. *)
Lemma digit_not_letter (c : ascii) :
  isdigit c = true ->
  Ascii.eqb c "W" = false /\ Ascii.eqb c "k" = false /\ Ascii.eqb c "l" = false
  /\ Ascii.eqb c "N" = false /\ Ascii.eqb c "S" = false.
Proof.
  destruct c as [[] [] [] [] [] [] [] []]; try discriminate;
    intros _; repeat split; reflexivity.
Qed.

Lemma take_drop (n : nat) (s : string) : take n s ++ drop n s = s.
Proof.
  revert s; induction n as [|n IH]; intros [|c s]; simpl; try reflexivity.
  now rewrite IH.
Qed.

Lemma length_lower (s : string) : length (lower s) = length s.
Proof. induction s as [|c s IH]; simpl; congruence. Qed.

Lemma drop_lower (n : nat) (s : string) : drop n (lower s) = lower (drop n s).
Proof.
  revert s; induction n as [|n IH]; intros [|c s]; simpl; try reflexivity.
  apply IH.
Qed.

Lemma length_append (s t : string) : length (s ++ t) = length s + length t.
Proof. induction s as [|c s IH]; simpl; congruence. Qed.

Lemma append_assoc (s t u : string) : (s ++ t) ++ u = s ++ t ++ u.
Proof. induction s as [|c s IH]; simpl; congruence. Qed.

Lemma append_empty_r (s : string) : s ++ "" = s.
Proof. induction s as [|c s IH]; simpl; congruence. Qed.

Lemma take_append (s t : string) : take (length s) (s ++ t) = s.
Proof. induction s as [|c s IH]; simpl; [now destruct t | congruence]. Qed.

Lemma skip_digits_all (s : string) :
  all_chars isdigit s = true -> skip_digits s = "".
Proof.
  induction s as [|c s IH]; simpl; [reflexivity|].
  intros H; apply andb_prop in H as [Hc Hs]. now rewrite Hc, IH.
Qed.

(** ** The normaliser's loop *)

Lemma last_of_snoc (l : list string) (x : string) :
  last_of (l ++ [x]) = Some x.
Proof.
  induction l as [|a l IH]; [reflexivity|].
  simpl. destruct (l ++ [x])%list eqn:E; [now destruct l | exact IH].
Qed.

Lemma no_adjacent_dup_snoc (l : list string) (x : string) :
  no_adjacent_dup l -> last_of l <> Some x -> no_adjacent_dup (l ++ [x]).
Proof.
  induction l as [|a [|b l] IH]; simpl; intros Hl Hx.
  - exact I.
  - split; [congruence | exact I].
  - destruct Hl as [Hab Hl]. split; [exact Hab|]. apply IH; assumption.
Qed.

Lemma no_adjacent_dup_nth (l : list string) :
  no_adjacent_dup l ->
  forall i a b, nth_error l i = Some a -> nth_error l (S i) = Some b -> a <> b.
Proof.
  induction l as [|x [|y l] IH]; intros Hl i a b Ha Hb.
  - now destruct i.
  - destruct i as [|[|i]]; discriminate.
  - destruct Hl as [Hxy Hl]. destruct i as [|i].
    + simpl in Ha, Hb. congruence.
    + exact (IH Hl i a b Ha Hb).
Qed.

Lemma differs_from_spec (seg : string) (last : option string) :
  differs_from seg last = true <-> last <> Some seg.
Proof.
  destruct last as [l|]; simpl.
  - rewrite negb_true_iff. split.
    + intros H E. injection E as ->. now rewrite String.eqb_refl in H.
    + intros H. apply String.eqb_neq. congruence.
  - split; [discriminate | reflexivity].
Qed.

(** What one line does to the state: nothing to the segments, or the
    stripped and trimmed line is appended, being non-empty and different
    from the last accepted segment. *)
Lemma process_line_cases (st : state) (raw : string) :
  cleaned_segments (process_line st raw) = cleaned_segments st
  /\ last_added_segment (process_line st raw) = last_added_segment st
  \/ let seg := strip (strip_tags (strip raw)) in
     seg <> "" /\ last_added_segment st <> Some seg
     /\ process_line st raw
        = mkState (cleaned_segments st ++ [seg]) (in_style_block st) (Some seg).
Proof.
  unfold process_line.
  repeat match goal with
         | |- context [if ?b then _ else _] => destruct b eqn:?
         end; try (left; split; reflexivity).
  right. simpl.
  match goal with H : (_ && _) = true |- _ => apply andb_prop in H as [Hne Hd] end.
  repeat split.
  - apply negb_true_iff in Hne. now apply String.eqb_neq.
  - now apply differs_from_spec.
Qed.

Lemma tracked_initial : tracked initial_state.
Proof. split; [reflexivity | exact I]. Qed.

Lemma tracked_step (st : state) (raw : string) :
  tracked st -> tracked (process_line st raw).
Proof.
  intros [Hlast Hnd].
  destruct (process_line_cases st raw) as [[Hs Hl] | (Hne & Hd & ->)].
  - split; [now rewrite Hs, Hl | now rewrite Hs].
  - unfold tracked; cbn [cleaned_segments last_added_segment]. split.
    + now rewrite last_of_snoc.
    + apply no_adjacent_dup_snoc; [assumption | now rewrite <- Hlast].
Qed.

Lemma tracked_fold (lines : list string) (st : state) :
  tracked st -> tracked (fold_left process_line lines st).
Proof.
  revert st; induction lines as [|l lines IH]; intros st H; simpl;
    [assumption | apply IH, tracked_step, H].
Qed.

Lemma tracked_run (lines : list string) : tracked (run lines).
Proof. apply tracked_fold, tracked_initial. Qed.

Lemma run_snoc (lines : list string) (raw : string) :
  run (lines ++ [raw]) = process_line (run lines) raw.
Proof. unfold run. now rewrite fold_left_app. Qed.

(** Once the flag is set, a line leaves the flag set and the segments as
    they are: the branch that would clear the flag asks for an empty line,
    and empty lines were dismissed by the first test. *)
Lemma style_block_absorbs (st : state) (raw : string) :
  in_style_block st = true ->
  in_style_block (process_line st raw) = true
  /\ cleaned_segments (process_line st raw) = cleaned_segments st.
Proof.
  intros Hst. unfold process_line. rewrite Hst.
  destruct (strip raw =? "") eqn:He; simpl; [now split|].
  repeat match goal with
         | |- context [if ?b then _ else _] => destruct b eqn:?
         end; now split.
Qed.

Lemma style_block_absorbs_fold (lines : list string) (st : state) :
  in_style_block st = true ->
  in_style_block (fold_left process_line lines st) = true
  /\ cleaned_segments (fold_left process_line lines st) = cleaned_segments st.
Proof.
  revert st; induction lines as [|l lines IH]; intros st Hst; simpl;
    [now split|].
  destruct (style_block_absorbs st l Hst) as [H1 H2].
  destruct (IH _ H1) as [H3 H4]. split; congruence.
Qed.

(** A line whose trimmed form starts with the marker sets the flag. *)
Lemma style_marker_sets (st : state) (raw : string) :
  startswith (strip raw) "STYLE" = true ->
  process_line st raw
  = mkState (cleaned_segments st) true (last_added_segment st).
Proof.
  intros H. unfold process_line.
  destruct (strip raw) as [|c1 [|c2 [|c3 [|c4 [|c5 s]]]]];
    try (simpl in H; repeat rewrite andb_false_r in H; discriminate).
  simpl in H.
  repeat match type of H with
         | (_ && _) = true => apply andb_prop in H as [?Hc H]
         end.
  repeat match goal with
         | Hc : Ascii.eqb _ _ = true |- _ => apply Ascii.eqb_eq in Hc; subst
         end.
  reflexivity.
Qed.

(** A line of digits leaves the state as it is. *)
Lemma digit_line_skipped (st : state) (raw : string) :
  all_chars isdigit (strip raw) = true -> process_line st raw = st.
Proof.
  intros H. unfold process_line.
  destruct (strip raw) as [|c s] eqn:E; [reflexivity|].
  simpl in H. apply andb_prop in H as [Hc Hs].
  destruct (digit_not_letter c Hc) as (HW & Hk & Hl & HN & HS).
  assert (Hseq : is_sequence_number (String c s) = true).
  { unfold is_sequence_number. rewrite Hc. simpl skip_digits.
    rewrite Hc, (skip_digits_all s Hs). reflexivity. }
  assert (H1 : (String c s =? "WEBVTT") = false) by (simpl; now rewrite HW).
  assert (H2 : startswith (lower (String c s)) "kind:" = false)
    by (simpl; now rewrite (digit_lower c Hc), Hk).
  assert (H3 : startswith (lower (String c s)) "language:" = false)
    by (simpl; now rewrite (digit_lower c Hc), Hl).
  assert (H4 : startswith (String c s) "NOTE" = false) by (simpl; now rewrite HN).
  assert (H5 : startswith (String c s) "STYLE" = false) by (simpl; now rewrite HS).
  rewrite H1, H2, H3, H4, H5, Hseq.
  change (String c s =? "") with false. cbn [orb andb].
  destruct (in_style_block st); [reflexivity|].
  destruct (is_timing_line (String c s)); reflexivity.
Qed.

(** ** Claims about the normaliser *)

(** C1.  Among the accepted segments of any document, no two neighbours
    are equal; a line adds at most its stripped, trimmed text, and only
    when that text is non-empty and differs from the last accepted segment;
    equal segments that are not neighbours are both kept. *)
Theorem C1_adjacent_dedup :
  (forall lines i a b,
      nth_error (segments lines) i = Some a ->
      nth_error (segments lines) (S i) = Some b -> a <> b)
  /\ (forall lines raw,
         segments (lines ++ [raw]) = segments lines
         \/ let seg := strip (strip_tags (strip raw)) in
            seg <> "" /\ last_of (segments lines) <> Some seg
            /\ segments (lines ++ [raw]) = (segments lines ++ [seg])%list)
  /\ segments ["a"; "b"; "a"] = ["a"; "b"; "a"]
  /\ segments ["a"; "a"; "b"] = ["a"; "b"].
Proof.
  split; [|split; [|split; reflexivity]].
  - intros lines. apply no_adjacent_dup_nth, tracked_run.
  - intros lines raw. unfold segments. rewrite run_snoc.
    destruct (process_line_cases (run lines) raw) as [[Hs _] | (Hne & Hd & E)].
    + now left.
    + right. cbv zeta. repeat split.
      * exact Hne.
      * destruct (tracked_run lines) as [Hl _]. now rewrite <- Hl.
      * now rewrite E.
Qed.

(** C6.  The document made of the header [WEBVTT], the sequence number
    [1], the timing line [00:00:00.000 --> 00:00:02.000] and the cue text
    [hi] normalises to [hi], whether or not its lines carry their line
    terminator; the first three lines leave the state as it was. *)
Theorem C6_header_sequence_timing_suppressed :
  clean_lines ["WEBVTT"; "1"; "00:00:00.000 --> 00:00:02.000"; "hi"] = "hi"
  /\ clean_lines [nl "WEBVTT"; nl "1"; nl "00:00:00.000 --> 00:00:02.000";
                  nl "hi"] = "hi"
  /\ run ["WEBVTT"; "1"; "00:00:00.000 --> 00:00:02.000"] = initial_state
  /\ run [nl "WEBVTT"; nl "1"; nl "00:00:00.000 --> 00:00:02.000"]
     = initial_state.
Proof. repeat split; vm_compute; reflexivity. Qed.

(** C7.  The normaliser returns no transcript exactly when reading the
    file raised; a file that was read and yields no accepted segment gives
    the empty string, which is not the failure result. *)
Theorem C7_read_failure_vs_empty (fs : filesystem) (path : string) :
  (clean_vtt_to_txt fs path = None <-> exists e, fs path = Raised e)
  /\ (forall lines,
         fs path = Lines lines -> segments lines = [] ->
         clean_vtt_to_txt fs path = Some ""
         /\ clean_vtt_to_txt fs path <> None).
Proof.
  unfold clean_vtt_to_txt. split.
  - destruct (fs path) as [lines|e]; split.
    + discriminate.
    + intros [e H]; discriminate.
    + intros _. now exists e.
    + reflexivity.
  - intros lines -> Hseg. unfold clean_lines. rewrite Hseg.
    split; [reflexivity | discriminate].
Qed.

(** C9.  After a line whose trimmed form starts with [STYLE], the flag is
    set at every later point of the document and no later line adds a
    segment: the accepted segments are those of the lines before it.  No
    line clears the flag once it is set, so the branch that would clear it
    is never taken. *)
Theorem C9_style_block_never_ends (before after : list string) (marker : string) :
  startswith (strip marker) "STYLE" = true ->
  (forall k,
      in_style_block (run (before ++ marker :: firstn k after)) = true
      /\ segments (before ++ marker :: firstn k after) = segments before)
  /\ (forall st raw,
         in_style_block st = true -> in_style_block (process_line st raw) = true)
  /\ in_style_block (run (before ++ marker :: after)) = true
  /\ segments (before ++ marker :: after) = segments before
  /\ clean_lines (before ++ marker :: after) = clean_lines before.
Proof.
  intros Hm.
  assert (G : forall rest,
             in_style_block (run (before ++ marker :: rest)) = true
             /\ segments (before ++ marker :: rest) = segments before).
  { intros rest. unfold segments, run. rewrite fold_left_app. simpl.
    rewrite (style_marker_sets _ _ Hm).
    destruct (style_block_absorbs_fold rest
                (mkState (cleaned_segments (fold_left process_line before initial_state))
                         true
                         (last_added_segment (fold_left process_line before initial_state)))
                eq_refl) as [H1 H2].
    split; [exact H1 | exact H2]. }
  split; [intros k; apply G|].
  split; [intros st raw Hst; apply (style_block_absorbs st raw Hst)|].
  destruct (G after) as [H1 H2].
  repeat split; try assumption.
  unfold clean_lines. now rewrite H2.
Qed.

Lemma C9_witness :
  startswith (strip "STYLE") "STYLE" = true
  /\ segments (["one"] ++ "STYLE" :: [""; "two"]) = ["one"].
Proof.
  split; [reflexivity|].
  destruct (C9_style_block_never_ends ["one"] [""; "two"] "STYLE" eq_refl)
    as (_ & _ & _ & H & _).
  rewrite H. reflexivity.
Defined.

(** C10.  A line whose trimmed form consists of decimal digits only is
    dropped: it leaves the state as it is, so the document normalises as if
    the line were not there, also where the digits are cue text. *)
Theorem C10_digit_line_dropped (before after : list string) (raw : string) (st : state) :
  all_chars isdigit (strip raw) = true ->
  process_line st raw = st
  /\ run (before ++ raw :: after) = run (before ++ after)
  /\ segments (before ++ raw :: after) = segments (before ++ after)
  /\ clean_lines (before ++ raw :: after) = clean_lines (before ++ after).
Proof.
  intros H.
  assert (R : run (before ++ raw :: after) = run (before ++ after)).
  { unfold run. rewrite !fold_left_app. simpl.
    now rewrite (digit_line_skipped _ raw H). }
  split; [exact (digit_line_skipped st raw H)|].
  split; [exact R|].
  unfold clean_lines, segments. now rewrite R.
Qed.

Lemma C10_witness :
  all_chars isdigit (strip (nl "2008")) = true
  /\ clean_lines (["in"] ++ nl "2008" :: ["we met"]) = "in we met".
Proof.
  split; [reflexivity|].
  destruct (C10_digit_line_dropped ["in"] ["we met"] (nl "2008") initial_state eq_refl)
    as (_ & _ & _ & H).
  rewrite H. reflexivity.
Defined.

(** ** The base-name resolver *)

Lemma endswith_lower_split (s ext : string) :
  endswith (lower s) ext = true ->
  exists e, s = drop_last (length ext) s ++ e /\ lower e = ext.
Proof.
  unfold endswith, drop_last. intros H. apply andb_prop in H as [_ H].
  apply String.eqb_eq in H. rewrite length_lower, drop_lower in H.
  exists (drop (length s - length ext) s). split; [|exact H].
  symmetry. apply take_drop.
Qed.

(** One pass over a list of suffixes removes nothing when the lower-cased
    name ends with none of them, and otherwise removes an ending whose
    lower-cased form is one of them. *)
Lemma remove_one_suffix_spec (suffixes : list string) (s : string) :
  exists e,
    s = remove_one_suffix suffixes s ++ e
    /\ ((e = "" /\ forall x, In x suffixes -> endswith (lower s) x = false)
        \/ In (lower e) suffixes).
Proof.
  induction suffixes as [|ext rest IH]; simpl.
  - exists "". rewrite append_empty_r. split; [reflexivity|]. left.
    split; [reflexivity | intros x []].
  - destruct (endswith (lower s) ext) eqn:E.
    + destruct (endswith_lower_split s ext E) as (e & He & Hl).
      exists e. split; [exact He|]. right. left. now symmetry.
    + destruct IH as (e & He & [[He0 Hno] | Hin]); exists e; (split; [exact He|]).
      * left. split; [exact He0|]. intros x [<- | Hx]; [exact E | now apply Hno].
      * right. now right.
Qed.

(** C5.  The resolver returns a prefix of the file name: the name is the
    result followed by a language-code part and an extension part.  The
    extension part is empty when the lower-cased name does not end with
    [.vtt], and otherwise is an ending that reads [.vtt] in lower case; the
    language part is empty when what is left ends with none of the listed
    codes, and otherwise is an ending that is one of the codes in lower
    case.  So at most one of each is removed, the extension first. *)
Theorem C5_base_name_resolution (filename : string) :
  let base := get_base_filename_without_known_extensions filename in
  (exists lang ext,
      filename = base ++ lang ++ ext
      /\ ((ext = "" /\ endswith (lower filename) ".vtt" = false)
          \/ lower ext = ".vtt")
      /\ ((lang = ""
           /\ forall code, In code known_lang_codes ->
                           endswith (lower (base ++ lang)) code = false)
          \/ In (lower lang) known_lang_codes))
  /\ startswith filename base = true.
Proof.
  cbv zeta. unfold get_base_filename_without_known_extensions.
  destruct (remove_one_suffix_spec known_extensions filename) as (ext & He & Hext).
  set (b1 := remove_one_suffix known_extensions filename) in *.
  destruct (remove_one_suffix_spec known_lang_codes b1) as (lang & Hl & Hlang).
  set (b2 := remove_one_suffix known_lang_codes b1) in *.
  assert (E : filename = b2 ++ lang ++ ext).
  { rewrite <- append_assoc, <- Hl. exact He. }
  split.
  - exists lang, ext. split; [exact E|]. split.
    + destruct Hext as [[He0 Hno] | [Hin | []]].
      * left. split; [exact He0|]. apply Hno. now left.
      * right. now symmetry.
    + destruct Hlang as [[Hl0 Hno] | Hin].
      * left. split; [exact Hl0|]. now rewrite <- Hl.
      * now right.
  - rewrite E at 1. clear. induction b2 as [|c b IH]; simpl.
    + reflexivity.
    + now rewrite Ascii.eqb_refl.
Qed.

Example base_name_examples :
  map get_base_filename_without_known_extensions
      ["A.b.EN.VTT"; "a.vtt.vtt"; "a.en.fr.vtt"; "clip.en"; "notes.txt"; ".vtt"]
  = ["A.b"; "a.vtt"; "a.en"; "clip"; "notes.txt"; ""].
Proof. reflexivity. Qed.

(** C4 fails as stated: the resolver removes [.vtt] and then [.en]. *)
Lemma C4_counterexample :
  get_base_filename_without_known_extensions "Talk_20230101_Example.en.vtt"
  <> "Talk_20230101_Example.en".
Proof. vm_compute. discriminate. Qed.

(** C4, amended.  [Talk_20230101_Example.en.vtt] resolves to
    [Talk_20230101_Example]: the extension is removed, then the language
    code that the name ends with once the extension is gone. *)
Theorem C4_base_name_example :
  get_base_filename_without_known_extensions "Talk_20230101_Example.en.vtt"
  = "Talk_20230101_Example"
  /\ remove_one_suffix known_extensions "Talk_20230101_Example.en.vtt"
     = "Talk_20230101_Example.en"
  /\ remove_one_suffix known_lang_codes "Talk_20230101_Example.en"
     = "Talk_20230101_Example".
Proof. repeat split; vm_compute; reflexivity. Qed.

(** ** The index derivation *)

Lemma drop_append (s t : string) : drop (length s) (s ++ t) = t.
Proof. induction s as [|c s IH]; simpl; [now destruct t | exact IH]. Qed.

Lemma digits_append (d r : string) :
  all_chars isdigit d = true -> digits (length d) (d ++ r) = Some r.
Proof.
  induction d as [|c d IH]; simpl; [reflexivity|].
  intros H. apply andb_prop in H as [Hc Hd]. rewrite Hc. now apply IH.
Qed.

Lemma dotstar_txt_append (t : string) :
  all_chars not_lf t = true -> dotstar_txt (t ++ ".txt") = Some t.
Proof.
  induction t as [|c t IH]; [reflexivity|].
  intros H. simpl in H. apply andb_prop in H as [Hc Ht].
  change (String c t ++ ".txt") with (String c (t ++ ".txt")).
  cbn [dotstar_txt]. unfold not_lf in Hc. apply negb_true_iff in Hc.
  now rewrite Hc, (IH Ht).
Qed.

(** C3 fails as stated: the pattern asks for the literal prefix
    [TheMoneyGPS_], so another source prefix gives the fallback. *)
Lemma C3_counterexample :
  extract_info_from_filename "Source_20230615_My Great Title.txt"
  = ("Unknown Date", "Source_20230615_My Great Title")
  /\ extract_info_from_filename "Source_20230615_My Great Title"
     = ("Unknown Date", "Source_20230615_My Great Title")
  /\ extract_info_from_filename "Source_20230615_My Great Title.txt"
     <> ("2023-06-15", "My Great Title").
Proof. repeat split; vm_compute; try reflexivity; discriminate. Qed.

(** C3, amended.  For a file name [TheMoneyGPS_<YYYYMMDD>_<Title>.txt],
    with a title that holds no line feed, the date is [YYYY-MM-DD] and the
    title is [<Title>] with its underscores replaced by spaces. *)
Theorem C3_index_derivation (yyyy mm dd title : string) :
  length yyyy = 4 -> length mm = 2 -> length dd = 2 ->
  all_chars isdigit (yyyy ++ mm ++ dd) = true ->
  all_chars not_lf title = true ->
  extract_info_from_filename
    ("TheMoneyGPS_" ++ yyyy ++ mm ++ dd ++ "_" ++ title ++ ".txt")
  = (yyyy ++ "-" ++ mm ++ "-" ++ dd, replace_char "_" " " title).
Proof.
  intros Hy Hm Hd Hdig Ht.
  set (d := yyyy ++ mm ++ dd) in *.
  assert (Hlen : length d = 8).
  { unfold d. rewrite !length_append. lia. }
  unfold extract_info_from_filename, match_filename.
  replace ("TheMoneyGPS_" ++ yyyy ++ mm ++ dd ++ "_" ++ title ++ ".txt")
    with ("TheMoneyGPS_" ++ d ++ "_" ++ title ++ ".txt")
    by (unfold d; now rewrite !append_assoc).
  change (lit "TheMoneyGPS_" ("TheMoneyGPS_" ++ d ++ "_" ++ title ++ ".txt"))
    with (Some (d ++ "_" ++ title ++ ".txt")).
  unfold andthen. rewrite <- Hlen at 1. rewrite (digits_append _ _ Hdig).
  change (lit "_" ("_" ++ title ++ ".txt")) with (Some (title ++ ".txt")).
  cbv beta iota. rewrite (dotstar_txt_append _ Ht).
  rewrite <- Hlen at 1. rewrite take_append.
  f_equal. unfold format_date, slice, d.
  rewrite <- Hy at 1. rewrite take_append.
  assert (D4 : drop 4 (yyyy ++ mm ++ dd) = mm ++ dd)
    by (rewrite <- Hy at 1; apply drop_append).
  assert (D6 : drop 6 (yyyy ++ mm ++ dd) = dd).
  { change 6 with (4 + 2).
    replace (drop (4 + 2) (yyyy ++ mm ++ dd)) with (drop 2 (drop 4 (yyyy ++ mm ++ dd))).
    - rewrite D4. rewrite <- Hm at 1. apply drop_append.
    - clear. generalize (yyyy ++ mm ++ dd). intros s.
      destruct s as [|? [|? [|? [|? s]]]]; reflexivity. }
  rewrite D4, D6. change (6 - 4) with 2. rewrite <- Hm at 1.
  now rewrite take_append.
Qed.

Lemma C3_witness :
  extract_info_from_filename "TheMoneyGPS_20230615_My_Great_Title.txt"
  = ("2023-06-15", "My Great Title").
Proof.
  exact (C3_index_derivation "2023" "06" "15" "My_Great_Title"
           eq_refl eq_refl eq_refl eq_refl eq_refl).
Defined.

(** *** The fallback: [os.path.splitext] *)

Lemma rfind_lt_absent (s : string) (c : ascii) (k : nat) :
  (rfind s c < Z.of_nat k)%Z -> all_chars (is_not c) (drop k s) = true.
Proof.
  revert k; induction s as [|a s IH]; intros k H.
  - now destruct k.
  - simpl in H. destruct (0 <=? rfind s c)%Z eqn:E.
    + apply Z.leb_le in E. destruct k as [|k]; [lia|].
      simpl. apply IH. lia.
    + apply Z.leb_gt in E. destruct (Ascii.eqb a c) eqn:Eac.
      * destruct k as [|k]; [lia|]. simpl. apply IH. lia.
      * destruct k as [|k]; simpl.
        -- unfold is_not at 1. rewrite Eac. simpl.
           apply (IH 0). simpl. lia.
        -- apply IH. lia.
Qed.

Lemma rfind_found (s : string) (c : ascii) :
  (0 <= rfind s c)%Z ->
  exists r, drop (Z.to_nat (rfind s c)) s = String c r
            /\ all_chars (is_not c) r = true.
Proof.
  induction s as [|a s IH]; simpl; [lia|].
  destruct (0 <=? rfind s c)%Z eqn:E.
  - apply Z.leb_le in E. intros _. destruct (IH E) as (r & Hr & Hno).
    exists r. split; [|exact Hno].
    replace (Z.to_nat (rfind s c + 1)) with (S (Z.to_nat (rfind s c))) by lia.
    exact Hr.
  - apply Z.leb_gt in E. destruct (Ascii.eqb a c) eqn:Eac; [|lia].
    intros _. apply Ascii.eqb_eq in Eac. subst a. exists s. split; [reflexivity|].
    apply (rfind_lt_absent s c 0). simpl. lia.
Qed.

Lemma rfind_lower_bound (s : string) (c : ascii) : (-1 <= rfind s c)%Z.
Proof.
  induction s as [|a s IH]; simpl; [lia|].
  destruct (0 <=? rfind s c)%Z eqn:E; [apply Z.leb_le in E; lia|].
  destruct (Ascii.eqb a c); lia.
Qed.

Lemma all_chars_both (p q : ascii -> bool) (s : string) :
  all_chars p s = true -> all_chars q s = true ->
  all_chars (fun c => p c && q c) s = true.
Proof.
  induction s as [|c s IH]; simpl; [reflexivity|].
  intros Hp Hq. apply andb_prop in Hp as [-> Hp]. apply andb_prop in Hq as [-> Hq].
  now rewrite IH.
Qed.

(** [splitext] cuts the path in two; the second part is empty, or a dot
    followed by characters that are neither dots nor separators. *)
Lemma splitext_spec (p : string) :
  p = fst (splitext p) ++ snd (splitext p)
  /\ (snd (splitext p) = ""
      \/ exists e, snd (splitext p) = String "." e
                   /\ all_chars (fun c => is_not "." c && is_not "/" c) e = true).
Proof.
  unfold splitext.
  destruct (rfind p "/" <? rfind p ".")%Z eqn:E;
    [|simpl; rewrite append_empty_r; now split; [|left]].
  destruct (all_chars _ _);
    [simpl; rewrite append_empty_r; now split; [|left]|].
  cbn [fst snd]. split; [symmetry; apply take_drop|]. right.
  apply Z.ltb_lt in E. pose proof (rfind_lower_bound p "/") as Hs.
  destruct (rfind_found p "." ltac:(lia)) as (e & He & Hdot).
  exists e. split; [exact He|].
  apply all_chars_both; [exact Hdot|].
  assert (H := rfind_lt_absent p "/" (Z.to_nat (rfind p ".")) ltac:(lia)).
  rewrite He in H. simpl in H. exact H.
Qed.

Lemma rfind_absent (s : string) (c : ascii) :
  all_chars (is_not c) s = true -> rfind s c = (-1)%Z.
Proof.
  induction s as [|a s IH]; simpl; [reflexivity|].
  intros H. apply andb_prop in H as [Ha Hs]. rewrite (IH Hs).
  unfold is_not in Ha. apply negb_true_iff in Ha. now rewrite Ha.
Qed.

Lemma rfind_append_last (s e : string) (c : ascii) :
  all_chars (is_not c) e = true ->
  rfind (s ++ String c e) c = Z.of_nat (length s).
Proof.
  intros He. induction s as [|a s IH].
  - simpl. now rewrite (rfind_absent e c He), Ascii.eqb_refl.
  - change (rfind (String a s ++ String c e) c)
      with (let r := rfind (s ++ String c e) c in
            if (0 <=? r)%Z then (r + 1)%Z
            else if Ascii.eqb a c then 0%Z else (-1)%Z).
    cbv zeta. rewrite IH.
    destruct (0 <=? Z.of_nat (length s))%Z eqn:E; [simpl length; lia|].
    apply Z.leb_gt in E. lia.
Qed.

(** An ordinary file name (no separator, not beginning with a dot) is cut
    at its last dot. *)
Lemma splitext_plain (stem e : string) :
  starts_with_dot stem = false -> stem <> "" ->
  all_chars (is_not "/") (stem ++ String "." e) = true ->
  all_chars (is_not ".") e = true ->
  splitext (stem ++ String "." e) = (stem, String "." e).
Proof.
  intros Hd Hne Hsep He. unfold splitext.
  rewrite (rfind_absent _ _ Hsep), (rfind_append_last stem e "." He).
  destruct (-1 <? Z.of_nat (length stem))%Z eqn:E;
    [|apply Z.ltb_ge in E; lia].
  change (Z.to_nat (-1 + 1)) with 0. rewrite Nat2Z.id.
  unfold slice. rewrite Nat.sub_0_r. cbn [drop].
  rewrite take_append, drop_append.
  destruct stem as [|c stem]; [congruence|].
  simpl in Hd. simpl all_chars. now rewrite Hd.
Qed.

(** C8.  A file name that the pattern does not match gets the date
    [Unknown Date], and as title the name without its trailing extension:
    the name is the title followed by nothing, or by a dot and characters
    that are neither dots nor path separators; for an ordinary file name
    (no separator, not beginning with a dot) the title is what stands
    before the last dot. *)
Theorem C8_unmatched_fallback (filename : string) :
  match_filename filename = None ->
  let title := snd (extract_info_from_filename filename) in
  fst (extract_info_from_filename filename) = "Unknown Date"
  /\ title = fst (splitext filename)
  /\ (exists ext,
         filename = title ++ ext
         /\ (ext = ""
             \/ exists e, ext = String "." e
                          /\ all_chars (fun c => is_not "." c && is_not "/" c) e
                             = true))
  /\ (forall stem e,
         filename = stem ++ String "." e ->
         starts_with_dot stem = false -> stem <> "" ->
         all_chars (is_not "/") filename = true ->
         all_chars (is_not ".") e = true ->
         title = stem).
Proof.
  intros H. unfold extract_info_from_filename. rewrite H. cbn [fst snd].
  split; [reflexivity|]. split; [reflexivity|]. split.
  - destruct (splitext_spec filename) as [E Hext].
    exists (snd (splitext filename)). split; assumption.
  - intros stem e -> Hd Hne Hsep He.
    now rewrite (splitext_plain stem e Hd Hne Hsep He).
Qed.

Lemma C8_witness :
  match_filename "Weekly.update.2023.txt" = None
  /\ extract_info_from_filename "Weekly.update.2023.txt"
     = ("Unknown Date", "Weekly.update.2023").
Proof.
  split; [reflexivity|].
  destruct (C8_unmatched_fallback "Weekly.update.2023.txt" eq_refl) as (Hd & Ht & _).
  destruct (extract_info_from_filename "Weekly.update.2023.txt") as [d t].
  cbn [fst snd] in Hd, Ht. rewrite Hd, Ht. reflexivity.
Defined.

(** ** White space: trimming and collapsing *)

Lemma rstrip_cons (c : ascii) (s : string) :
  rstrip (String c s)
  = match rstrip s with
    | "" => if isspace c then "" else String c ""
    | r => String c r
    end.
Proof. reflexivity. Qed.

Lemma collapse_ws_cons (c : ascii) (s : string) :
  collapse_ws (String c s)
  = if isspace c then
      if starts_with_space s then collapse_ws s else String " " (collapse_ws s)
    else String c (collapse_ws s).
Proof. reflexivity. Qed.

Lemma lstrip_idem (s : string) : lstrip (lstrip s) = lstrip s.
Proof.
  induction s as [|c s IH]; simpl; [reflexivity|].
  destruct (isspace c) eqn:E; [exact IH | simpl; now rewrite E].
Qed.

(** What [rstrip] returns begins like the string it was given. *)
Lemma rstrip_head (c a : ascii) (s r : string) :
  rstrip (String c s) = String a r -> a = c.
Proof.
  rewrite rstrip_cons. destruct (rstrip s); [destruct (isspace c)|]; congruence.
Qed.

Lemma rstrip_head_space (s r : string) (a : ascii) :
  rstrip s = String a r -> isspace a = starts_with_space s.
Proof.
  destruct s as [|c s]; [discriminate|].
  intros H. apply rstrip_head in H. now subst.
Qed.

Lemma rstrip_idem (s : string) : rstrip (rstrip s) = rstrip s.
Proof.
  induction s as [|c s IH]; [reflexivity|].
  rewrite rstrip_cons. destruct (rstrip s) as [|a r] eqn:R.
  - destruct (isspace c) eqn:E; [reflexivity|].
    rewrite rstrip_cons. simpl. now rewrite E.
  - rewrite rstrip_cons, IH. reflexivity.
Qed.

Lemma lstrip_rstrip (s : string) : lstrip (rstrip s) = rstrip (lstrip s).
Proof.
  induction s as [|c s IH]; [reflexivity|].
  rewrite rstrip_cons. cbn [lstrip]. destruct (isspace c) eqn:E.
  - rewrite <- IH. destruct (rstrip s) as [|a r]; [reflexivity|].
    cbn [lstrip]. now rewrite E.
  - rewrite rstrip_cons.
    destruct (rstrip s) as [|a r]; rewrite ?E; cbn [lstrip]; now rewrite E.
Qed.

Lemma strip_idem (s : string) : strip (strip s) = strip s.
Proof.
  unfold strip. now rewrite lstrip_rstrip, rstrip_idem, lstrip_idem.
Qed.

Lemma collapse_ws_nonempty (c : ascii) (s : string) :
  collapse_ws (String c s) <> "".
Proof.
  revert c; induction s as [|c' s IH]; intros c; rewrite collapse_ws_cons.
  - destruct (isspace c); discriminate.
  - destruct (isspace c); [|discriminate].
    destruct (starts_with_space (String c' s)); [apply IH | discriminate].
Qed.

Lemma lstrip_collapse_ws (s : string) :
  lstrip (collapse_ws s) = collapse_ws (lstrip s).
Proof.
  induction s as [|c s IH]; [reflexivity|].
  rewrite collapse_ws_cons. cbn [lstrip]. destruct (isspace c) eqn:E.
  - destruct (starts_with_space s); [exact IH|].
    cbn [lstrip]. change (isspace " ") with true. exact IH.
  - cbn [lstrip]. now rewrite E, collapse_ws_cons, E.
Qed.

Lemma rstrip_collapse_ws (s : string) :
  rstrip (collapse_ws s) = collapse_ws (rstrip s).
Proof.
  induction s as [|c s IH]; [reflexivity|].
  rewrite collapse_ws_cons, (rstrip_cons c s).
  destruct (isspace c) eqn:E.
  - destruct (starts_with_space s) eqn:Hs.
    + rewrite IH. destruct (rstrip s) as [|a r] eqn:R; [reflexivity|].
      rewrite (collapse_ws_cons c), E. cbn [starts_with_space].
      now rewrite (rstrip_head_space _ _ _ R), Hs.
    + rewrite rstrip_cons, IH. change (isspace " ") with true.
      destruct (rstrip s) as [|a r] eqn:R; [reflexivity|].
      pose proof (collapse_ws_nonempty a r) as Hne.
      rewrite (collapse_ws_cons c), E. cbn [starts_with_space].
      rewrite (rstrip_head_space _ _ _ R), Hs.
      destruct (collapse_ws (String a r)); [congruence | reflexivity].
  - rewrite rstrip_cons, IH.
    destruct (rstrip s) as [|a r] eqn:R.
    + rewrite collapse_ws_cons, E. reflexivity.
    + pose proof (collapse_ws_nonempty a r) as Hne.
      rewrite (collapse_ws_cons c), E.
      destruct (collapse_ws (String a r)); [congruence | reflexivity].
Qed.

Lemma strip_collapse_ws (s : string) :
  strip (collapse_ws s) = collapse_ws (strip s).
Proof. unfold strip. now rewrite lstrip_collapse_ws, rstrip_collapse_ws. Qed.

(** Trimming first changes nothing for [normalize_ws]. *)
Lemma normalize_ws_strip (s : string) : normalize_ws (strip s) = normalize_ws s.
Proof.
  unfold normalize_ws. now rewrite <- strip_collapse_ws, strip_idem.
Qed.

(** [collapse_ws s] begins with white space exactly when [s] does. *)
Lemma collapse_ws_head (s : string) :
  starts_with_space (collapse_ws s) = starts_with_space s.
Proof.
  induction s as [|c s IH]; [reflexivity|].
  rewrite collapse_ws_cons. cbn [starts_with_space].
  destruct (isspace c) eqn:E; [|exact E].
  destruct (starts_with_space s) eqn:Hs; [exact IH | reflexivity].
Qed.

Lemma collapse_ws_idem (s : string) : collapse_ws (collapse_ws s) = collapse_ws s.
Proof.
  induction s as [|c s IH]; [reflexivity|].
  rewrite collapse_ws_cons. destruct (isspace c) eqn:E.
  - destruct (starts_with_space s) eqn:Hs; [exact IH|].
    rewrite collapse_ws_cons. change (isspace " ") with true.
    now rewrite collapse_ws_head, Hs, IH.
  - now rewrite collapse_ws_cons, E, IH.
Qed.

Lemma normalize_ws_idem (s : string) :
  normalize_ws (normalize_ws s) = normalize_ws s.
Proof.
  unfold normalize_ws at 2. rewrite normalize_ws_strip.
  unfold normalize_ws. now rewrite collapse_ws_idem.
Qed.

(** ** Tag removal *)

Lemma after_close_shorter (s r : string) :
  after_close s = Some r -> length r < length s.
Proof.
  revert r; induction s as [|c s IH]; intros r; simpl; [discriminate|].
  destruct (Ascii.eqb c ">").
  - intros [= ->]. lia.
  - intros H. apply IH in H. lia.
Qed.

Lemma tag_body_shorter (s r : string) :
  tag_body s = Some r -> length r < length s.
Proof.
  destruct s as [|c s]; simpl; [discriminate|].
  destruct (Ascii.eqb c ">"); [discriminate|].
  intros H. apply after_close_shorter in H. lia.
Qed.

(** The counter of [sub_tags] never runs out when it starts at the length
    of the string: any larger counter gives the same result. *)
Lemma sub_tags_enough (n m : nat) (s : string) :
  length s <= n -> length s <= m -> sub_tags n s = sub_tags m s.
Proof.
  revert m s; induction n as [|n IH]; intros m s Hn Hm.
  - destruct s; [|simpl in Hn; lia]. now destruct m.
  - destruct s as [|c s]; [now destruct m|].
    destruct m as [|m]; [simpl in Hm; lia|].
    simpl in Hn, Hm. simpl.
    destruct (Ascii.eqb c "<").
    + destruct (tag_body s) as [rest|] eqn:T.
      * apply tag_body_shorter in T. apply IH; lia.
      * f_equal. apply IH; lia.
    + f_equal. apply IH; lia.
Qed.

(** The recursion of [re.sub(r"<[^>]+>", "", s)] on the string alone. *)
Lemma strip_tags_cons (c : ascii) (s : string) :
  strip_tags (String c s)
  = if Ascii.eqb c "<" then
      match tag_body s with
      | Some rest => strip_tags rest
      | None => String c (strip_tags s)
      end
    else String c (strip_tags s).
Proof.
  unfold strip_tags. simpl.
  destruct (Ascii.eqb c "<").
  - destruct (tag_body s) as [rest|] eqn:T; [|reflexivity].
    apply tag_body_shorter in T. apply sub_tags_enough; lia.
  - reflexivity.
Qed.

(** Text without an opening bracket holds no tag. *)
Lemma strip_tags_no_bracket (s : string) :
  all_chars (is_not "<") s = true -> strip_tags s = s.
Proof.
  induction s as [|c s IH]; [reflexivity|].
  simpl. intros H. apply andb_prop in H as [Hc Hs].
  rewrite strip_tags_cons. unfold is_not in Hc. apply negb_true_iff in Hc.
  now rewrite Hc, IH.
Qed.

(** ** A cleaned text given back to the normaliser *)

Lemma clean_lines_single (s : string) :
  kept_as_text (strip s) = true ->
  strip_tags (strip s) = strip s ->
  clean_lines [s] = normalize_ws s.
Proof.
  intros Hk Ht. rewrite <- normalize_ws_strip.
  unfold clean_lines, segments, run. cbn [fold_left].
  unfold process_line. rewrite Ht, strip_idem.
  unfold kept_as_text in Hk. apply negb_true_iff in Hk.
  repeat (apply orb_false_elim in Hk as [Hk ?]).
  destruct (strip s =? "") eqn:E.
  - apply String.eqb_eq in E. rewrite E. reflexivity.
  - repeat match goal with H : _ = false |- _ => rewrite H; clear H end.
    reflexivity.
Qed.

(** C2 fails as stated: a cleaned text may be digits only, the header
    token, or text that begins like a comment; and joining segments can
    form a tag.  Given back as the only line, it is dismissed or loses the
    tag. *)
Lemma C2_counterexample :
  (clean_lines ["<c>2008</c>"] = "2008"
   /\ normalize_ws "2008" = "2008" /\ clean_lines ["2008"] = "")
  /\ (clean_lines ["<b>WEBVTT</b>"] = "WEBVTT" /\ clean_lines ["WEBVTT"] = "")
  /\ (clean_lines ["<i>NOTE</i> the date"] = "NOTE the date"
      /\ clean_lines ["NOTE the date"] = "")
  /\ (clean_lines ["if a <b"; "and c> d"] = "if a <b and c> d"
      /\ clean_lines ["if a <b and c> d"] = "if a d").
Proof. repeat split; vm_compute; reflexivity. Qed.

(** C2, amended.  A string whose trimmed form is not dismissed as header,
    metadata, comment, style marker, timing line or sequence number, and
    holds no tag, is returned by the normaliser, as a one-line document,
    with its white-space runs collapsed and its ends trimmed; when the
    string is itself an output of the normaliser, it is returned as it
    is. *)
Theorem C2_idempotence_on_cue_text (s : string) :
  kept_as_text (strip s) = true ->
  strip_tags (strip s) = strip s ->
  clean_lines [s] = normalize_ws s
  /\ (forall lines, s = clean_lines lines -> clean_lines [s] = s).
Proof.
  intros Hk Ht. split; [now apply clean_lines_single|].
  intros lines E. rewrite (clean_lines_single s Hk Ht).
  rewrite E. unfold clean_lines. apply normalize_ws_idem.
Qed.

Lemma C2_witness :
  kept_as_text (strip "  so   it begins ") = true
  /\ strip_tags (strip "  so   it begins ") = strip "  so   it begins "
  /\ clean_lines ["  so   it begins "] = "so it begins".
Proof.
  split; [reflexivity|]. split; [reflexivity|].
  destruct (C2_idempotence_on_cue_text "  so   it begins " eq_refl eq_refl)
    as [H _].
  rewrite H. reflexivity.
Defined.

(** * Further properties of the code *)

(** ** Lines that never matter *)

Lemma digits_head (n : nat) (s r : string) :
  digits (S n) s = Some r -> exists c s', s = String c s' /\ isdigit c = true.
Proof.
  simpl. destruct s as [|c s']; [discriminate|].
  destruct (isdigit c) eqn:E; [|discriminate]. intros _. now exists c, s'.
Qed.

(** A timing line and a sequence number begin with a digit. *)
Lemma timing_line_head (line : string) :
  is_timing_line line = true ->
  exists c s, line = String c s /\ isdigit c = true.
Proof.
  unfold is_timing_line, timestamp, andthen.
  destruct (digits 2 line) as [r|] eqn:E; [|discriminate].
  intros _. exact (digits_head 1 line r E).
Qed.

Lemma sequence_number_head (line : string) :
  is_sequence_number line = true ->
  exists c s, line = String c s /\ isdigit c = true.
Proof.
  destruct line as [|c s]; [discriminate|]. simpl.
  destruct (isdigit c) eqn:E; [|discriminate]. intros _. now exists c, s.
Qed.

Lemma noise_line_inert (st : state) (raw : string) :
  noise_line raw = true -> process_line st raw = st.
Proof.
  unfold noise_line, process_line. cbv zeta.
  destruct ((strip raw =? "") || (strip raw =? "WEBVTT")
            || startswith (lower (strip raw)) "kind:"
            || startswith (lower (strip raw)) "language:") eqn:H1;
    [reflexivity|].
  apply orb_false_elim in H1 as [H1 _]. apply orb_false_elim in H1 as [H1 _].
  apply orb_false_elim in H1 as [H1 _]. rewrite H1. cbn [orb].
  destruct (startswith (strip raw) "NOTE"); [reflexivity|]. cbn [orb].
  intros H.
  assert (Hd : exists c s, strip raw = String c s /\ isdigit c = true).
  { apply orb_prop in H as [H|H];
      [now apply timing_line_head | now apply sequence_number_head]. }
  destruct Hd as (c & s & E & Hc). rewrite E in *.
  destruct (digit_not_letter c Hc) as (_ & _ & _ & _ & HS).
  replace (startswith (String c s) "STYLE") with false
    by (simpl; now rewrite HS).
  rewrite andb_false_r.
  destruct (in_style_block st); [reflexivity|].
  destruct (is_timing_line (String c s)) eqn:T; [reflexivity|].
  cbn [orb] in H. now rewrite H.
Qed.

Lemma noise_lines_inert (mid : list string) (st : state) :
  forallb noise_line mid = true -> fold_left process_line mid st = st.
Proof.
  revert st; induction mid as [|l mid IH]; intros st H; [reflexivity|].
  simpl in H. apply andb_prop in H as [Hl Hm].
  simpl. rewrite (noise_line_inert st l Hl). now apply IH.
Qed.

Lemma fold_skip_noise (lines : list string) (st : state) :
  fold_left process_line (filter (fun l => negb (noise_line l)) lines) st
  = fold_left process_line lines st.
Proof.
  revert st; induction lines as [|l lines IH]; intros st; [reflexivity|].
  simpl. destruct (noise_line l) eqn:E; simpl.
  - now rewrite (noise_line_inert st l E).
  - apply IH.
Qed.

(** X1.  Blank lines, the header token, metadata lines in any case,
    comments, timing lines and sequence numbers leave the state as it is,
    in every state; a document and the document without these lines give
    the same segments and the same text. *)
Theorem X1_noise_lines_removable (lines : list string) :
  let kept := filter (fun l => negb (noise_line l)) lines in
  (forall st raw, noise_line raw = true -> process_line st raw = st)
  /\ run kept = run lines
  /\ segments kept = segments lines
  /\ clean_lines kept = clean_lines lines.
Proof.
  cbv zeta. split; [exact noise_line_inert|].
  assert (R : run (filter (fun l => negb (noise_line l)) lines) = run lines)
    by apply fold_skip_noise.
  unfold clean_lines, segments. now rewrite R.
Qed.

(** ** Repeated lines *)

Lemma process_line_twice (st : state) (raw : string) :
  process_line (process_line st raw) raw = process_line st raw.
Proof.
  unfold process_line.
  destruct ((strip raw =? "") || (strip raw =? "WEBVTT")
            || startswith (lower (strip raw)) "kind:"
            || startswith (lower (strip raw)) "language:") eqn:H1;
    [now rewrite ?H1|].
  destruct (startswith (strip raw) "NOTE") eqn:H2; [now rewrite ?H1, ?H2|].
  destruct (startswith (strip raw) "STYLE") eqn:H3; [reflexivity|].
  apply orb_false_elim in H1 as [H1 _]. apply orb_false_elim in H1 as [H1 _].
  apply orb_false_elim in H1 as [H1 _]. rewrite H1, !andb_false_r.
  destruct st as [segs flag last]. cbn [in_style_block last_added_segment cleaned_segments].
  destruct flag; [reflexivity|].
  destruct (is_timing_line (strip raw)) eqn:H4; [reflexivity|].
  destruct (is_sequence_number (strip raw)) eqn:H5; [reflexivity|].
  set (seg := strip (strip_tags (strip raw))).
  destruct (negb (seg =? "") && differs_from seg last) eqn:H6.
  - cbn [in_style_block last_added_segment cleaned_segments].
    unfold differs_from at 1. rewrite String.eqb_refl.
    cbn [negb]. now rewrite andb_false_r.
  - cbn [in_style_block last_added_segment cleaned_segments]. now rewrite H6.
Qed.

(** X2.  A line given again right after itself, or after lines that never
    matter, changes nothing: the state after the second copy is the state
    after the first, in every state, and a document with such a repetition
    normalises like the document without it. *)
Theorem X2_repeated_line_collapses
  (before mid after : list string) (raw : string) :
  forallb noise_line mid = true ->
  (forall st, process_line (process_line st raw) raw = process_line st raw)
  /\ run (before ++ raw :: mid ++ raw :: after)
     = run (before ++ raw :: mid ++ after)
  /\ clean_lines (before ++ raw :: mid ++ raw :: after)
     = clean_lines (before ++ raw :: mid ++ after).
Proof.
  intros Hm. split; [intros st; apply process_line_twice|].
  assert (R : run (before ++ raw :: mid ++ raw :: after)
              = run (before ++ raw :: mid ++ after)).
  { unfold run. rewrite !fold_left_app. cbn [fold_left].
    rewrite !fold_left_app. cbn [fold_left].
    rewrite !(noise_lines_inert mid _ Hm). now rewrite process_line_twice. }
  split; [exact R|]. unfold clean_lines, segments. now rewrite R.
Qed.

Lemma X2_witness :
  clean_lines ([nl "WEBVTT"]
               ++ nl "same phrase"
                  :: [nl ""; nl "2"; nl "00:00:02.000 --> 00:00:04.000 align:start"]
               ++ nl "same phrase" :: [nl "next"])
  = "same phrase next".
Proof.
  destruct (X2_repeated_line_collapses
              [nl "WEBVTT"]
              [nl ""; nl "2"; nl "00:00:02.000 --> 00:00:04.000 align:start"]
              [nl "next"] (nl "same phrase") eq_refl) as (_ & _ & H).
  rewrite H. reflexivity.
Defined.

(** ** Tags *)

Lemma string_length_ind (P : string -> Prop) :
  (forall s, (forall t, length t < length s -> P t) -> P s) -> forall s, P s.
Proof.
  intros H s.
  assert (G : forall n t, length t < n -> P t).
  { induction n as [|n IH]; intros t Ht; [lia|].
    apply H. intros u Hu. apply IH. lia. }
  apply (G (S (length s))). lia.
Qed.

Lemma strip_tags_length (s : string) : length (strip_tags s) <= length s.
Proof.
  induction s as [s IH] using string_length_ind.
  destruct s as [|c s]; [apply Nat.le_refl|].
  rewrite strip_tags_cons.
  assert (K : length (String c (strip_tags s)) <= length (String c s)).
  { simpl. apply le_n_S, IH. simpl. lia. }
  destruct (Ascii.eqb c "<"); [|exact K].
  destruct (tag_body s) as [rest|] eqn:T; [|exact K].
  apply tag_body_shorter in T.
  assert (length (strip_tags rest) <= length rest) by (apply IH; simpl; lia).
  simpl. lia.
Qed.

Lemma after_close_none (s : string) :
  after_close s = None <-> all_chars (is_not ">") s = true.
Proof.
  induction s as [|c s IH]; simpl; [now split|].
  unfold is_not at 1. destruct (Ascii.eqb c ">"); simpl.
  - split; discriminate.
  - exact IH.
Qed.

Lemma tag_body_no_close (s : string) :
  all_chars (is_not ">") s = true -> tag_body s = None.
Proof.
  destruct s as [|c s]; [reflexivity|]. simpl.
  intros H. apply andb_prop in H as [Hc Hs].
  destruct (Ascii.eqb c ">"); [reflexivity|]. now apply after_close_none.
Qed.

(** Text without a closing bracket holds no tag. *)
Lemma strip_tags_no_close (s : string) :
  all_chars (is_not ">") s = true -> strip_tags s = s.
Proof.
  induction s as [|c s IH]; [reflexivity|].
  intros H. pose proof H as H0. simpl in H. apply andb_prop in H as [Hc Hs].
  rewrite strip_tags_cons, (tag_body_no_close s Hs), (IH Hs).
  now destruct (Ascii.eqb c "<").
Qed.

Lemma tag_body_none_kept (s : string) :
  tag_body s = None -> tag_body (strip_tags s) = None.
Proof.
  destruct s as [|d t]; [reflexivity|].
  intros H. pose proof H as H0. simpl in H.
  destruct (Ascii.eqb d ">") eqn:E.
  - apply Ascii.eqb_eq in E. subst d. rewrite strip_tags_cons.
    reflexivity.
  - apply after_close_none in H.
    assert (A : all_chars (is_not ">") (String d t) = true)
      by (simpl; unfold is_not at 1; now rewrite E).
    now rewrite (strip_tags_no_close _ A).
Qed.

Lemma strip_tags_idem (s : string) : strip_tags (strip_tags s) = strip_tags s.
Proof.
  induction s as [s IH] using string_length_ind.
  destruct s as [|c s]; [reflexivity|].
  rewrite strip_tags_cons. destruct (Ascii.eqb c "<") eqn:E.
  - destruct (tag_body s) as [rest|] eqn:T.
    + apply IH. apply tag_body_shorter in T. simpl. lia.
    + rewrite strip_tags_cons, E, (tag_body_none_kept s T).
      f_equal. apply IH. simpl. lia.
  - rewrite strip_tags_cons, E. f_equal. apply IH. simpl. lia.
Qed.

Lemma after_close_app_none (s u : string) :
  after_close (s ++ u) = None -> after_close s = None.
Proof.
  induction s as [|c s IH]; simpl; [reflexivity|].
  destruct (Ascii.eqb c ">"); [discriminate | exact IH].
Qed.

Lemma tag_body_app_none (s u : string) :
  tag_body (s ++ u) = None -> tag_body s = None.
Proof.
  destruct s as [|c s]; [reflexivity|]. simpl.
  destruct (Ascii.eqb c ">"); [reflexivity | apply after_close_app_none].
Qed.

(** The beginning of a text without tags holds no tag. *)
Lemma tag_free_app (s u : string) : tag_free (s ++ u) -> tag_free s.
Proof.
  unfold tag_free. induction s as [|c s IH]; [reflexivity|].
  change (String c s ++ u) with (String c (s ++ u)).
  rewrite !strip_tags_cons. destruct (Ascii.eqb c "<").
  - destruct (tag_body (s ++ u)) as [rest|] eqn:T.
    + intros H. apply tag_body_shorter in T.
      pose proof (strip_tags_length rest) as L. rewrite H in L. simpl in L. lia.
    + rewrite (tag_body_app_none s u T). intros [= H]. now rewrite IH.
  - intros [= H]. now rewrite IH.
Qed.

Lemma space_not_bracket (c : ascii) :
  isspace c = true -> Ascii.eqb c "<" = false.
Proof. each_char c. Qed.

Lemma tag_free_lstrip (s : string) : tag_free s -> tag_free (lstrip s).
Proof.
  unfold tag_free. induction s as [|c s IH]; [reflexivity|].
  simpl lstrip. destruct (isspace c) eqn:E; [|trivial].
  rewrite strip_tags_cons, (space_not_bracket c E). intros [= H]. now apply IH.
Qed.

Lemma rstrip_prefix (s : string) : exists w, s = rstrip s ++ w.
Proof.
  induction s as [|c s (w & IH)]; [now exists ""|].
  rewrite rstrip_cons. destruct (rstrip s) as [|a r].
  - destruct (isspace c); [now exists (String c s) | now exists s].
  - exists w. simpl. now rewrite IH at 1.
Qed.

Lemma tag_free_strip (s : string) : tag_free s -> tag_free (strip s).
Proof.
  intros H. apply tag_free_lstrip in H. unfold strip.
  destruct (rstrip_prefix (lstrip s)) as (w & E).
  rewrite E in H. exact (tag_free_app _ _ H).
Qed.

(** X4.  Removing tags leaves no tag behind: doing it again changes
    nothing; and the result is never longer than the text. *)
Theorem X4_strip_tags_idempotent (s : string) :
  strip_tags (strip_tags s) = strip_tags s
  /\ length (strip_tags s) <= length s.
Proof. split; [apply strip_tags_idem | apply strip_tags_length]. Qed.

(** ** The accepted segments *)

Lemma accepted_step (st : state) (raw : string) :
  Forall accepted (cleaned_segments st) ->
  Forall accepted (cleaned_segments (process_line st raw)).
Proof.
  intros H.
  destruct (process_line_cases st raw) as [[-> _] | (Hne & _ & ->)];
    [exact H|].
  cbn [cleaned_segments]. apply Forall_app. split; [exact H|].
  constructor; [|constructor]. repeat split.
  - exact Hne.
  - apply strip_idem.
  - apply tag_free_strip. unfold tag_free. apply strip_tags_idem.
Qed.

Lemma accepted_run (lines : list string) : Forall accepted (segments lines).
Proof.
  unfold segments, run.
  assert (G : forall st, Forall accepted (cleaned_segments st) ->
                         Forall accepted
                           (cleaned_segments (fold_left process_line lines st))).
  { induction lines as [|l lines IH]; intros st H; [exact H|].
    simpl. apply IH, accepted_step, H. }
  apply G. constructor.
Qed.

(** X3.  Every accepted segment is non-empty, has no white space at its
    ends, and holds no tag. *)
Theorem X3_segments_well_formed (lines : list string) (seg : string) :
  In seg (segments lines) ->
  seg <> "" /\ strip seg = seg /\ strip_tags seg = seg.
Proof.
  intros H. pose proof (accepted_run lines) as A.
  rewrite Forall_forall in A. exact (A seg H).
Qed.

Lemma X3_witness :
  In "hello world" (segments ["  <c>hello</c> <v Speaker>world</v> "])
  /\ strip_tags "hello world" = "hello world".
Proof.
  assert (H : In "hello world" (segments ["  <c>hello</c> <v Speaker>world</v> "]))
    by (left; reflexivity).
  split; [exact H|].
  exact (proj2 (proj2 (X3_segments_well_formed _ _ H))).
Defined.

(** ** The shape of the text *)

Lemma lstrip_head (s : string) : starts_with_space (lstrip s) = false.
Proof.
  induction s as [|c s IH]; [reflexivity|].
  simpl. destruct (isspace c) eqn:E; [exact IH | simpl; exact E].
Qed.

Lemma rstrip_keeps_head (s : string) :
  starts_with_space s = false -> starts_with_space (rstrip s) = false.
Proof.
  destruct s as [|c s]; [reflexivity|]. simpl starts_with_space at 1.
  intros E. rewrite rstrip_cons.
  destruct (rstrip s); rewrite ?E; simpl; exact E.
Qed.

Lemma rstrip_tail (s : string) : ends_with_space (rstrip s) = false.
Proof.
  induction s as [|c s IH]; [reflexivity|].
  rewrite rstrip_cons. destruct (rstrip s) as [|a r].
  - destruct (isspace c) eqn:E; [reflexivity | simpl; exact E].
  - exact IH.
Qed.

Lemma rstrip_nonempty (c : ascii) (s : string) :
  isspace c = false -> rstrip (String c s) <> "".
Proof.
  intros E. rewrite rstrip_cons. destruct (rstrip s); rewrite ?E; discriminate.
Qed.

Lemma single_spaced_collapse_ws (s : string) :
  single_spaced (collapse_ws s) = true.
Proof.
  induction s as [|c s IH]; [reflexivity|].
  rewrite collapse_ws_cons. destruct (isspace c) eqn:E.
  - destruct (starts_with_space s) eqn:Hs; [exact IH|].
    cbn [single_spaced]. rewrite collapse_ws_head, Hs, IH. reflexivity.
  - cbn [single_spaced]. now rewrite E, IH.
Qed.

Lemma single_spaced_lstrip (s : string) :
  single_spaced s = true -> single_spaced (lstrip s) = true.
Proof.
  induction s as [|c s IH]; [reflexivity|].
  intros H. simpl lstrip. destruct (isspace c); [|exact H].
  simpl in H. apply andb_prop in H as [_ H]. now apply IH.
Qed.

Lemma single_spaced_app (s u : string) :
  single_spaced (s ++ u) = true -> single_spaced s = true.
Proof.
  induction s as [|c s IH]; [reflexivity|].
  change (String c s ++ u) with (String c (s ++ u)). cbn [single_spaced].
  intros H. apply andb_prop in H as [Hc Hs]. rewrite (IH Hs), andb_true_r.
  destruct s as [|d s]; [|exact Hc].
  destruct (isspace c); [|reflexivity].
  simpl in *. apply andb_prop in Hc as [-> _]. reflexivity.
Qed.

Lemma single_spaced_strip (s : string) :
  single_spaced s = true -> single_spaced (strip s) = true.
Proof.
  intros H. apply single_spaced_lstrip in H. unfold strip.
  destruct (rstrip_prefix (lstrip s)) as (w & E). rewrite E in H.
  exact (single_spaced_app _ _ H).
Qed.

(** X5.  The text the normaliser returns neither begins nor ends with
    white space, and its only white-space characters are single spaces
    between other characters: no tab, no line break, no run of spaces. *)
Theorem X5_text_is_single_spaced (lines : list string) :
  let text := clean_lines lines in
  starts_with_space text = false
  /\ ends_with_space text = false
  /\ single_spaced text = true.
Proof.
  cbv zeta. unfold clean_lines, normalize_ws. repeat split.
  - unfold strip. apply rstrip_keeps_head, lstrip_head.
  - unfold strip. apply rstrip_tail.
  - apply single_spaced_strip, single_spaced_collapse_ws.
Qed.

Lemma strip_fixed_head (s : string) :
  strip s = s -> starts_with_space s = false.
Proof.
  intros E. rewrite <- E. unfold strip. apply rstrip_keeps_head, lstrip_head.
Qed.

Lemma normalize_ws_nonempty (c : ascii) (s : string) :
  isspace c = false -> normalize_ws (String c s) <> "".
Proof.
  intros E. unfold normalize_ws, strip. rewrite collapse_ws_cons, E.
  cbn [lstrip]. rewrite E. now apply rstrip_nonempty.
Qed.

Lemma join_head (sep x : string) (l : list string) :
  exists r, join sep (x :: l) = x ++ r.
Proof.
  unfold join. destruct l as [|y l]; simpl.
  - exists "". now rewrite append_empty_r.
  - eexists. reflexivity.
Qed.

(** A document with an accepted segment has a text that is not empty. *)
Lemma text_nonempty (lines : list string) :
  segments lines <> [] -> clean_lines lines <> "".
Proof.
  unfold clean_lines. intros Hs H. pose proof (accepted_run lines) as A.
  destruct (segments lines) as [|seg rest]; [congruence|].
  inversion A as [|? ? (Hne & Hf & _) _]; subst.
  destruct (join_head " " seg rest) as (r & E). rewrite E in H.
  apply strip_fixed_head in Hf.
  destruct seg as [|c seg]; [congruence|].
  exact (normalize_ws_nonempty c (seg ++ r) Hf H).
Qed.

(** X6.  The normaliser returns the empty text exactly for the documents
    that have no accepted segment. *)
Theorem X6_empty_text_iff_no_segment (lines : list string) :
  clean_lines lines = "" <-> segments lines = [].
Proof.
  split.
  - intros H. destruct (segments lines) as [|seg rest] eqn:E; [reflexivity|].
    exfalso. apply (text_nonempty lines); [|exact H]. rewrite E. discriminate.
  - intros E. unfold clean_lines. rewrite E. reflexivity.
Qed.

(** ** Growth of the segments *)

Lemma segments_fold_grow (lines : list string) (st : state) :
  exists more,
    cleaned_segments (fold_left process_line lines st)
    = (cleaned_segments st ++ more)%list
    /\ List.length more <= List.length lines.
Proof.
  revert st; induction lines as [|l lines IH]; intros st.
  - exists []. now rewrite app_nil_r.
  - simpl. destruct (IH (process_line st l)) as (more & E & L).
    destruct (process_line_cases st l) as [[Hs _] | (_ & _ & Hs)].
    + exists more. rewrite E, Hs. split; [reflexivity | lia].
    + rewrite Hs in E |- *. cbn [cleaned_segments] in E.
      eexists. rewrite E, <- app_assoc. split; [reflexivity|].
      simpl. lia.
Qed.

(** X7.  Reading on never changes what was accepted: the segments of a
    document begin with the segments of any of its beginnings; there are
    at most as many segments as lines; and [last_added_segment] is the
    last accepted segment after every line. *)
Theorem X7_segments_only_grow (read later : list string) :
  (exists more,
      segments (read ++ later) = (segments read ++ more)%list
      /\ List.length more <= List.length later)
  /\ List.length (segments read) <= List.length read
  /\ last_added_segment (run read) = last_of (segments read).
Proof.
  split; [|split].
  - unfold segments, run. rewrite fold_left_app. apply segments_fold_grow.
  - unfold segments, run.
    destruct (segments_fold_grow read initial_state) as (more & E & L).
    rewrite E. simpl. exact L.
  - exact (proj1 (tracked_run read)).
Qed.

(** ** Timing lines with cue settings *)

Lemma digits_local (n : nat) : local_matcher (digits n).
Proof.
  induction n as [|n IH]; intros s r x; simpl.
  - now intros [= ->].
  - destruct s as [|c s]; [discriminate|]. simpl.
    destruct (isdigit c); [apply IH | discriminate].
Qed.

Lemma startswith_app (s p x : string) :
  startswith s p = true -> startswith (s ++ x) p = true.
Proof.
  revert s; induction p as [|a p IH]; intros s; [reflexivity|].
  destruct s as [|b s]; [discriminate|]. simpl.
  destruct (Ascii.eqb b a); [apply IH | discriminate].
Qed.

Lemma drop_app_prefix (s p x : string) :
  startswith s p = true -> drop (length p) (s ++ x) = drop (length p) s ++ x.
Proof.
  revert s; induction p as [|a p IH]; intros s; [reflexivity|].
  destruct s as [|b s]; [discriminate|]. simpl.
  destruct (Ascii.eqb b a); [apply IH | discriminate].
Qed.

Lemma lit_local (p : string) : local_matcher (lit p).
Proof.
  intros s r x. unfold lit. destruct (startswith s p) eqn:E; [|discriminate].
  intros [= <-]. now rewrite (startswith_app s p x E), (drop_app_prefix s p x E).
Qed.

Lemma andthen_local (m1 m2 : matcher) :
  local_matcher m1 -> local_matcher m2 -> local_matcher (m1 ;; m2).
Proof.
  intros H1 H2 s r x. unfold andthen.
  destruct (m1 s) as [r1|] eqn:E; [|discriminate].
  rewrite (H1 s r1 x E). apply H2.
Qed.

Lemma lstrip_app (s x : string) :
  lstrip s <> "" -> lstrip (s ++ x) = lstrip s ++ x.
Proof.
  induction s as [|c s IH]; [intros H; now elim H|]. simpl.
  destruct (isspace c); [exact IH | reflexivity].
Qed.

(** White space may be followed by anything that needs a character. *)
Lemma spaces_then_local (m : matcher) :
  local_matcher m -> m "" = None -> local_matcher (spaces1 ;; m).
Proof.
  intros Hm H0 s r x. unfold andthen, spaces1.
  destruct s as [|c s]; [discriminate|]. simpl.
  destruct (isspace c); [|discriminate].
  intros H. assert (N : lstrip s <> "") by (intros E; rewrite E, H0 in H; discriminate).
  rewrite (lstrip_app s x N). now apply Hm.
Qed.

Lemma timestamp_local : local_matcher timestamp.
Proof.
  unfold timestamp.
  repeat (apply andthen_local; [first [apply digits_local | apply lit_local]|]).
  apply digits_local.
Qed.

Lemma timing_line_app (line settings : string) :
  is_timing_line line = true -> is_timing_line (line ++ settings) = true.
Proof.
  unfold is_timing_line.
  assert (L : local_matcher
                (timestamp ;; spaces1 ;; lit "-->" ;; spaces1 ;; timestamp)).
  { apply andthen_local; [apply timestamp_local|].
    apply spaces_then_local; [|reflexivity].
    apply andthen_local; [apply lit_local|].
    apply spaces_then_local; [apply timestamp_local | reflexivity]. }
  destruct ((timestamp ;; spaces1 ;; lit "-->" ;; spaces1 ;; timestamp) line)
    as [r|] eqn:E; [|discriminate].
  intros _. now rewrite (L line r settings E).
Qed.

(** X8.  Whatever follows a timing pattern on a line (cue settings such as
    [align:start position:0%]) is ignored: the line is still a timing line
    and leaves the state as it is. *)
Theorem X8_timing_line_settings_ignored
  (st : state) (raw line settings : string) :
  is_timing_line line = true ->
  strip raw = line ++ settings ->
  is_timing_line (line ++ settings) = true /\ process_line st raw = st.
Proof.
  intros Ht E. pose proof (timing_line_app line settings Ht) as T.
  split; [exact T|]. apply noise_line_inert.
  unfold noise_line. cbv zeta. rewrite E, T. now rewrite !orb_true_r.
Qed.

Lemma X8_witness :
  process_line (mkState ["so far"] false (Some "so far"))
               (nl "00:00:01.500 --> 00:00:04.000 align:start position:0%")
  = mkState ["so far"] false (Some "so far").
Proof.
  exact (proj2 (X8_timing_line_settings_ignored
                  (mkState ["so far"] false (Some "so far"))
                  (nl "00:00:01.500 --> 00:00:04.000 align:start position:0%")
                  "00:00:01.500 --> 00:00:04.000" " align:start position:0%"
                  eq_refl eq_refl)).
Defined.

(** ** Names made of a stem, a language code and the extension *)

Lemma lower_append (a b : string) : lower (a ++ b) = lower a ++ lower b.
Proof.
  induction a as [|c a IH]; [reflexivity|].
  cbn [append lower]. now rewrite IH.
Qed.

Lemma endswith_app (a b : string) : endswith (a ++ b) b = true.
Proof.
  unfold endswith. rewrite length_append.
  replace (length a + length b - length b) with (length a) by lia.
  rewrite drop_append, String.eqb_refl.
  replace (length b <=? length a + length b)%nat with true
    by (symmetry; apply Nat.leb_le; lia).
  reflexivity.
Qed.

Lemma drop_last_app (a b : string) : drop_last (length b) (a ++ b) = a.
Proof.
  unfold drop_last. rewrite length_append.
  replace (length a + length b - length b) with (length a) by lia.
  apply take_append.
Qed.

Lemma append_same_length (a b c d : string) :
  a ++ b = c ++ d -> length b = length d -> a = c /\ b = d.
Proof.
  revert c; induction a as [|x a IH]; intros [|y c] E L; simpl in E.
  - now split.
  - exfalso. rewrite E in L. simpl in L. rewrite length_append in L. lia.
  - exfalso. rewrite <- E in L. simpl in L. rewrite length_append in L. lia.
  - injection E as -> E. destruct (IH c E L) as [-> ->]. now split.
Qed.

Lemma lang_code_length (code : string) :
  In code known_lang_codes -> length code = 3.
Proof.
  unfold known_lang_codes. simpl.
  intros H. repeat (destruct H as [<- | H]; [reflexivity|]). contradiction.
Qed.

Lemma remove_one_suffix_none (suffixes : list string) (s : string) :
  existsb (endswith (lower s)) suffixes = false ->
  remove_one_suffix suffixes s = s.
Proof.
  induction suffixes as [|x l IH]; [reflexivity|]. simpl.
  intros H. apply orb_false_elim in H as [-> H]. now apply IH.
Qed.

Lemma remove_extension (s ext : string) :
  lower ext = ".vtt" -> remove_one_suffix known_extensions (s ++ ext) = s.
Proof.
  intros E. unfold known_extensions. cbn [remove_one_suffix].
  rewrite lower_append, E, endswith_app.
  replace (length ".vtt") with (length ext)
    by (now rewrite <- (length_lower ext), E).
  apply drop_last_app.
Qed.

Lemma remove_lang_code (s lang : string) :
  In (lower lang) known_lang_codes ->
  remove_one_suffix known_lang_codes (s ++ lang) = s.
Proof.
  intros Hin.
  destruct (remove_one_suffix_spec known_lang_codes (s ++ lang))
    as (e & He & [[_ Hno] | Hin']).
  - specialize (Hno _ Hin). rewrite lower_append, endswith_app in Hno.
    discriminate.
  - symmetry in He. apply append_same_length in He; [now destruct He|].
    rewrite <- (length_lower e), <- (length_lower lang).
    now rewrite (lang_code_length _ Hin), (lang_code_length _ Hin').
Qed.

(** X9.  A name built from a stem, one of the language codes and the
    extension, in any mix of upper and lower case, resolves to the stem,
    whatever the stem is; so does a stem with only the extension, when the
    stem does not itself end with a language code. *)
Theorem X9_base_name_of_built_name (stem lang ext : string) :
  lower ext = ".vtt" ->
  (In (lower lang) known_lang_codes ->
   get_base_filename_without_known_extensions (stem ++ lang ++ ext) = stem)
  /\ (ends_with_lang_code stem = false ->
      get_base_filename_without_known_extensions (stem ++ ext) = stem).
Proof.
  intros E. unfold get_base_filename_without_known_extensions. split.
  - intros Hin. rewrite <- append_assoc, (remove_extension _ _ E).
    now apply remove_lang_code.
  - intros Hno. rewrite (remove_extension _ _ E).
    now apply remove_one_suffix_none.
Qed.

Lemma X9_witness :
  get_base_filename_without_known_extensions ("Q3.report.en" ++ ".FR" ++ ".Vtt")
  = "Q3.report.en"
  /\ get_base_filename_without_known_extensions ("Q3.report" ++ ".VTT")
     = "Q3.report".
Proof.
  destruct (X9_base_name_of_built_name "Q3.report.en" ".FR" ".Vtt" eq_refl)
    as [H1 _].
  destruct (X9_base_name_of_built_name "Q3.report" "" ".VTT" eq_refl)
    as [_ H2].
  split; [apply H1; vm_compute; tauto | apply H2; reflexivity].
Defined.

Lemma existsb_false (A : Type) (f : A -> bool) (l : list A) :
  (forall x, In x l -> f x = false) -> existsb f l = false.
Proof.
  induction l as [|a l IH]; [reflexivity|]. intros H. simpl.
  rewrite (H a (or_introl eq_refl)). apply IH. intros x Hx. apply H. now right.
Qed.

Lemma append_self_empty (s e : string) : s = s ++ e -> e = "".
Proof.
  intros E. assert (L : length s = length (s ++ e)) by now rewrite <- E.
  rewrite length_append in L. destruct e; [reflexivity | simpl in L; lia].
Qed.

(** X10.  The resolver returns a name unchanged exactly when the name, in
    lower case, ends neither with the extension nor with a language
    code. *)
Theorem X10_base_name_unchanged (filename : string) :
  get_base_filename_without_known_extensions filename = filename
  <-> endswith (lower filename) ".vtt" = false
      /\ ends_with_lang_code filename = false.
Proof.
  unfold get_base_filename_without_known_extensions, ends_with_lang_code.
  split.
  - intros H.
    destruct (remove_one_suffix_spec known_extensions filename)
      as (e1 & E1 & H1).
    destruct (remove_one_suffix_spec known_lang_codes
                (remove_one_suffix known_extensions filename))
      as (e2 & E2 & H2).
    rewrite H in E2.
    assert (E : filename = filename ++ e2 ++ e1).
    { rewrite <- append_assoc, <- E2. exact E1. }
    apply append_self_empty in E.
    assert (e2 = "" /\ e1 = "") as [-> ->]
      by (destruct e2; [now split | discriminate]).
    rewrite append_empty_r in E2. rewrite E2 in H2. split.
    + destruct H1 as [[_ Hno] | [Hin | []]]; [|discriminate].
      apply Hno. now left.
    + destruct H2 as [[_ Hno] | Hin].
      * now apply existsb_false.
      * apply lang_code_length in Hin. discriminate.
  - intros [H1 H2].
    assert (R : remove_one_suffix known_extensions filename = filename).
    { apply remove_one_suffix_none. simpl. now rewrite H1. }
    rewrite R. now apply remove_one_suffix_none.
Qed.

(** ** What the file-name pattern matches *)

Lemma startswith_split (s p : string) :
  startswith s p = true -> s = p ++ drop (length p) s.
Proof.
  revert s; induction p as [|a p IH]; intros s; [now destruct s|].
  destruct s as [|b s]; [discriminate|]. simpl.
  destruct (Ascii.eqb b a) eqn:E; [|discriminate].
  apply Ascii.eqb_eq in E. subst b. intros H. f_equal. now apply IH.
Qed.

Lemma append_cancel_l (a b c : string) : a ++ b = a ++ c -> b = c.
Proof.
  induction a as [|x a IH]; [trivial|]. intros [= H]. now apply IH.
Qed.

Lemma lit_sound (p s r : string) : lit p s = Some r -> s = p ++ r.
Proof.
  unfold lit. destruct (startswith s p) eqn:E; [|discriminate].
  intros [= <-]. now apply startswith_split.
Qed.

Lemma digits_sound (n : nat) (s r : string) :
  digits n s = Some r ->
  s = take n s ++ r /\ length (take n s) = n
  /\ all_chars isdigit (take n s) = true.
Proof.
  revert s; induction n as [|n IH]; intros s; simpl.
  - intros [= ->]. now destruct r.
  - destruct s as [|c s]; [discriminate|].
    destruct (isdigit c) eqn:E; [|discriminate].
    intros H. destruct (IH s H) as (E1 & E2 & E3). simpl.
    rewrite E, E2, E3. repeat split. now rewrite <- E1.
Qed.

Lemma dotstar_txt_sound (s g : string) :
  dotstar_txt s = Some g ->
  exists rest, s = g ++ ".txt" ++ rest /\ all_chars not_lf g = true.
Proof.
  revert g; induction s as [|c s IH]; intros g; [discriminate|].
  cbn [dotstar_txt].
  destruct (if Ascii.eqb c LF then None else dotstar_txt s) as [g1|] eqn:E.
  - intros [= <-]. destruct (Ascii.eqb c LF) eqn:Ec; [discriminate|].
    destruct (IH g1 E) as (rest & -> & Hg). exists rest. split; [reflexivity|].
    simpl. unfold not_lf at 1. now rewrite Ec.
  - destruct (startswith (String c s) ".txt") eqn:St; [|discriminate].
    intros [= <-]. exists (drop 4 (String c s)). split; [|reflexivity].
    exact (startswith_split _ _ St).
Qed.

Lemma dotstar_txt_complete (g rest : string) :
  all_chars not_lf g = true -> dotstar_txt (g ++ ".txt" ++ rest) <> None.
Proof.
  induction g as [|c g IH]; intros H.
  - change ("" ++ ".txt" ++ rest) with (String "." ("txt" ++ rest)).
    cbn [dotstar_txt].
    destruct (if Ascii.eqb "." LF then None else dotstar_txt ("txt" ++ rest));
      discriminate.
  - simpl in H. apply andb_prop in H as [Hc Hg].
    change (String c g ++ ".txt" ++ rest) with (String c (g ++ ".txt" ++ rest)).
    cbn [dotstar_txt]. unfold not_lf in Hc. apply negb_true_iff in Hc.
    rewrite Hc. specialize (IH Hg).
    destruct (dotstar_txt (g ++ ".txt" ++ rest)); [discriminate | congruence].
Qed.

(** The group is the longest one that [.txt] can follow. *)
Lemma dotstar_txt_longest (s g : string) :
  dotstar_txt s = Some g ->
  forall g' rest', s = g' ++ ".txt" ++ rest' -> all_chars not_lf g' = true ->
                   length g' <= length g.
Proof.
  revert g; induction s as [|c s IH]; intros g; [discriminate|].
  cbn [dotstar_txt].
  destruct (if Ascii.eqb c LF then None else dotstar_txt s) as [g1|] eqn:E.
  - intros [= <-] g' rest' Es Hg'. destruct (Ascii.eqb c LF); [discriminate|].
    destruct g' as [|c' g']; [simpl; lia|].
    injection Es as -> Es. simpl in Hg'. apply andb_prop in Hg' as [_ Hg'].
    simpl. apply le_n_S. exact (IH g1 E g' rest' Es Hg').
  - destruct (startswith (String c s) ".txt"); [|discriminate].
    intros [= <-] g' rest' Es Hg'.
    destruct g' as [|c' g']; [apply Nat.le_refl|]. exfalso.
    injection Es as -> Es. simpl in Hg'. apply andb_prop in Hg' as [Hc Hg'].
    unfold not_lf in Hc. apply negb_true_iff in Hc. rewrite Hc in E.
    rewrite Es in E. exact (dotstar_txt_complete g' rest' Hg' E).
Qed.

Lemma replace_char_absent (a b : ascii) (s : string) :
  Ascii.eqb b a = false -> all_chars (is_not a) (replace_char a b s) = true.
Proof.
  intros H. induction s as [|c s IH]; [reflexivity|]. simpl.
  rewrite IH, andb_true_r. unfold is_not.
  destruct (Ascii.eqb c a) eqn:E; [now rewrite H | now rewrite E].
Qed.

(** X11.  When the pattern matches, the file name is [TheMoneyGPS_], the
    date group of eight digits, an underscore, the title group, [.txt] and
    a rest that is ignored; the title group holds no line feed and is the
    longest such group that [.txt] follows; the title returned has no
    underscore. *)
Theorem X11_match_decomposes (filename date_str g2 : string) :
  match_filename filename = Some (date_str, g2) ->
  (exists rest,
      filename = "TheMoneyGPS_" ++ date_str ++ "_" ++ g2 ++ ".txt" ++ rest)
  /\ length date_str = 8
  /\ all_chars isdigit date_str = true
  /\ all_chars not_lf g2 = true
  /\ (forall g' rest',
         filename = "TheMoneyGPS_" ++ date_str ++ "_" ++ g' ++ ".txt" ++ rest' ->
         all_chars not_lf g' = true -> length g' <= length g2)
  /\ all_chars (is_not "_") (snd (extract_info_from_filename filename)) = true.
Proof.
  intros H. pose proof H as H0. unfold match_filename, andthen in H.
  destruct (lit "TheMoneyGPS_" filename) as [r1|] eqn:E1; [|discriminate].
  destruct (digits 8 r1) as [r2|] eqn:E2; [|discriminate].
  destruct (lit "_" r2) as [r3|] eqn:E3; [|discriminate].
  destruct (dotstar_txt r3) as [g|] eqn:E4; [|discriminate].
  injection H as <- <-.
  apply lit_sound in E1. apply lit_sound in E3.
  destruct (digits_sound 8 r1 r2 E2) as (D1 & D2 & D3).
  destruct (dotstar_txt_sound r3 g E4) as (rest & R & Hg).
  assert (F : filename = "TheMoneyGPS_" ++ take 8 r1 ++ "_" ++ r3)
    by (rewrite E1 at 1; rewrite D1 at 1; now rewrite E3 at 1).
  split; [exists rest; rewrite F at 1; now rewrite R at 1|].
  repeat split; try assumption.
  - intros g' rest' Eg Hg'. apply (dotstar_txt_longest r3 g E4 g' rest'); [|exact Hg'].
    rewrite F in Eg. now repeat apply append_cancel_l in Eg.
  - unfold extract_info_from_filename. rewrite H0. cbn [snd].
    now apply replace_char_absent.
Qed.

Lemma X11_witness :
  exists rest,
    "TheMoneyGPS_20230615_a.txt_b.txt.bak"
    = "TheMoneyGPS_" ++ "20230615" ++ "_" ++ "a.txt_b" ++ ".txt" ++ rest.
Proof.
  exact (proj1 (X11_match_decomposes "TheMoneyGPS_20230615_a.txt_b.txt.bak"
                  "20230615" "a.txt_b" eq_refl)).
Defined.

(** ** The date of an index entry *)

Lemma format_date_dashed (d : string) :
  length d = 8 -> all_chars isdigit d = true -> dashed_date (format_date d).
Proof.
  intros L D.
  do 8 (destruct d as [|? d]; [discriminate|]).
  destruct d; [|discriminate].
  unfold dashed_date, format_date, slice. cbn [take drop Nat.sub].
  eexists (String _ (String _ (String _ (String _ "")))),
          (String _ (String _ "")), (String _ (String _ "")).
  split; [reflexivity|]. repeat split. exact D.
Qed.

(** X12.  The date of an index entry is [Unknown Date], or four digits,
    two digits and two digits separated by dashes. *)
Theorem X12_date_shape (filename : string) :
  let date := fst (extract_info_from_filename filename) in
  date = "Unknown Date" \/ dashed_date date.
Proof.
  cbv zeta. unfold extract_info_from_filename.
  destruct (match_filename filename) as [[d g]|] eqn:M; [|now left].
  right. cbn [fst]. unfold match_filename, andthen in M.
  destruct (lit "TheMoneyGPS_" filename) as [r1|]; [|discriminate].
  destruct (digits 8 r1) as [r2|] eqn:E2; [|discriminate].
  destruct (lit "_" r2) as [r3|]; [|discriminate].
  destruct (dotstar_txt r3); [|discriminate].
  injection M as <- _.
  destruct (digits_sound 8 r1 r2 E2) as (_ & D2 & D3).
  now apply format_date_dashed.
Qed.




(** ** The converter's batch *)

Import convert_vtt_to_txt.

Section Converter.

Variable env : os_env.
Variables input_dir output_dir : string.

Lemma convert_file_cases (r : report) (filename : string) :
  convert_file env input_dir output_dir r filename
  = if converts env input_dir output_dir filename then
      mkReport (total_files r + 1) (converted_files r + 1) (skipped_files r)
               (written r ++ [written_entry env input_dir output_dir filename])
    else if fails env input_dir output_dir filename then
      mkReport (total_files r + 1) (converted_files r) (skipped_files r + 1)
               (written r)
    else r.
Proof.
  unfold convert_file, converts, fails, written_entry, cleaned, output_path,
    is_vtt.
  destruct (endswith (lower filename) ".vtt"); [|reflexivity]. cbn [andb].
  destruct (clean_vtt_to_txt (os_readlines env) (path_join input_dir filename))
    as [text|]; [|reflexivity].
  destruct (os_write_raises env _ text); reflexivity.
Qed.

Lemma converts_or_fails (filename : string) :
  is_vtt filename
  = converts env input_dir output_dir filename
    || fails env input_dir output_dir filename.
Proof.
  unfold converts, fails. destruct (is_vtt filename); [|reflexivity].
  destruct (cleaned env input_dir filename) as [text|]; [|reflexivity].
  cbn [andb]. now destruct (os_write_raises env _ text).
Qed.

Lemma converts_not_fails (filename : string) :
  converts env input_dir output_dir filename = true ->
  fails env input_dir output_dir filename = false.
Proof.
  unfold converts, fails. destruct (is_vtt filename); [|reflexivity].
  destruct (cleaned env input_dir filename) as [text|]; [|discriminate].
  cbn [andb]. now destruct (os_write_raises env _ text).
Qed.

(** The loop, from any report: each counter grows by the number of names
    of its kind, and the writes are those of the converted names, in the
    order of the listing. *)
Lemma convert_fold (names : list string) (r0 : report) :
  let r := fold_left (convert_file env input_dir output_dir) names r0 in
  total_files r = total_files r0 + List.length (filter is_vtt names)
  /\ converted_files r
     = converted_files r0
       + List.length (filter (converts env input_dir output_dir) names)
  /\ skipped_files r
     = skipped_files r0
       + List.length (filter (fails env input_dir output_dir) names)
  /\ written r
     = (written r0
        ++ map (written_entry env input_dir output_dir)
             (filter (converts env input_dir output_dir) names))%list.
Proof.
  cbv zeta. revert r0; induction names as [|f names IH]; intros r0.
  - simpl. rewrite app_nil_r. repeat split; lia.
  - cbn [fold_left filter]. rewrite convert_file_cases, (converts_or_fails f).
    destruct (IH (convert_file env input_dir output_dir r0 f))
      as (H1 & H2 & H3 & H4).
    rewrite convert_file_cases in H1, H2, H3, H4.
    destruct (converts env input_dir output_dir f) eqn:C.
    + rewrite (converts_not_fails f C). cbn [orb].
      cbn [total_files converted_files skipped_files written] in *.
      rewrite H1, H2, H3, H4. cbn [List.length map].
      rewrite <- app_assoc. repeat split; simpl; lia.
    + cbn [orb]. destruct (fails env input_dir output_dir f);
        cbn [total_files converted_files skipped_files written] in *;
        rewrite H1, H2, H3, H4; cbn [List.length]; repeat split; lia.
Qed.

Lemma count_converts_fails (names : list string) :
  List.length (filter is_vtt names)
  = List.length (filter (converts env input_dir output_dir) names)
    + List.length (filter (fails env input_dir output_dir) names).
Proof.
  induction names as [|f names IH]; [reflexivity|].
  cbn [filter]. rewrite (converts_or_fails f).
  destruct (converts env input_dir output_dir f) eqn:C.
  - rewrite (converts_not_fails f C). simpl. lia.
  - cbn [orb]. destruct (fails env input_dir output_dir f); simpl; lia.
Qed.

End Converter.

Lemma convert_main_finished (env : os_env) (script_dir : string) (r : report) :
  main env script_dir = Finished r ->
  exists names,
    os_listdir env (path_join script_dir "transcripts") = Some names
    /\ os_isdir env (path_join script_dir "transcripts") = true
    /\ r = fold_left (convert_file env (path_join script_dir "transcripts")
                        (path_join script_dir "clean_txt"))
             names (mkReport 0 0 0 []).
Proof.
  unfold main.
  destruct (os_isdir env (path_join script_dir "transcripts")); [|discriminate].
  cbn [negb].
  destruct (os_makedirs_raises env (path_join script_dir "clean_txt"));
    [discriminate|].
  destruct (os_listdir env (path_join script_dir "transcripts")) as [names|];
    [|discriminate].
  intros [= <-]. now exists names.
Qed.

(** X14.  When the converter ends normally, every file of the input
    directory whose name ends with [.vtt], in any case, is counted once,
    as converted or as skipped: the total is the sum of the two.  The
    converted ones are the writes made, and the skipped ones are exactly
    the files whose reading or writing raised. *)
Theorem X14_converter_counters (env : os_env) (script_dir : string) (r : report) :
  main env script_dir = Finished r ->
  exists names,
    os_listdir env (path_join script_dir "transcripts") = Some names
    /\ total_files r = converted_files r + skipped_files r
    /\ total_files r = List.length (filter is_vtt names)
    /\ converted_files r = List.length (written r)
    /\ skipped_files r
       = List.length
           (filter (fails env (path_join script_dir "transcripts")
                      (path_join script_dir "clean_txt")) names).
Proof.
  intros H. destruct (convert_main_finished env script_dir r H)
    as (names & HL & _ & ->).
  exists names. split; [exact HL|].
  destruct (convert_fold env (path_join script_dir "transcripts")
              (path_join script_dir "clean_txt") names (mkReport 0 0 0 []))
    as (H1 & H2 & H3 & H4).
  cbn [total_files converted_files skipped_files written] in *.
  rewrite H1, H2, H3, H4. cbn [app]. rewrite length_map.
  pose proof (count_converts_fails env (path_join script_dir "transcripts")
                (path_join script_dir "clean_txt") names).
  repeat split; lia.
Qed.

Lemma X14_witness :
  main example_env "/srv"
  = Finished (mkReport 3 2 1
                [("/srv/clean_txt/TheMoneyGPS_20240102_Rates_Rise.txt",
                  "rates rise again");
                 ("/srv/clean_txt/Silence.txt", "")])
  /\ exists names,
      os_listdir example_env (path_join "/srv" "transcripts") = Some names
      /\ 3 = 2 + 1.
Proof.
  split; [reflexivity|].
  destruct (X14_converter_counters example_env "/srv" _ eq_refl)
    as (names & HL & H & _).
  exists names. split; [exact HL | exact H].
Defined.

(** X15.  The writes of the converter are, in the order of the listing,
    one for each caption file that was read and whose write did not raise:
    to the path of its base name with [.txt] in the output directory, with
    the text of the normaliser.  A caption file that was read is written
    also when its text is empty. *)
Theorem X15_converter_writes (env : os_env) (script_dir : string)
  (r : report) (names : list string) :
  main env script_dir = Finished r ->
  os_listdir env (path_join script_dir "transcripts") = Some names ->
  let input_dir := path_join script_dir "transcripts" in
  let output_dir := path_join script_dir "clean_txt" in
  written r
  = map (written_entry env input_dir output_dir)
      (filter (converts env input_dir output_dir) names)
  /\ (forall filename lines,
         In filename names -> is_vtt filename = true ->
         os_readlines env (path_join input_dir filename) = Lines lines ->
         os_write_raises env (output_path output_dir filename)
           (clean_lines lines) = false ->
         In (output_path output_dir filename, clean_lines lines) (written r)).
Proof.
  intros H HL. cbv zeta.
  destruct (convert_main_finished env script_dir r H) as (names' & HL' & _ & ->).
  rewrite HL in HL'. injection HL' as <-.
  destruct (convert_fold env (path_join script_dir "transcripts")
              (path_join script_dir "clean_txt") names (mkReport 0 0 0 []))
    as (_ & _ & _ & H4).
  cbn [written app] in H4. split; [exact H4|].
  intros f lines Hin Hv Hr Hw. rewrite H4.
  assert (C : cleaned env (path_join script_dir "transcripts") f
              = Some (clean_lines lines))
    by (unfold cleaned, clean_vtt_to_txt; now rewrite Hr).
  replace (output_path (path_join script_dir "clean_txt") f, clean_lines lines)
    with (written_entry env (path_join script_dir "transcripts")
            (path_join script_dir "clean_txt") f)
    by (unfold written_entry; now rewrite C).
  apply in_map, filter_In. split; [exact Hin|].
  unfold converts. now rewrite Hv, C, Hw.
Qed.

Lemma X15_witness :
  In ("/srv/clean_txt/Silence.txt", "")
     (written (mkReport 3 2 1
                 [("/srv/clean_txt/TheMoneyGPS_20240102_Rates_Rise.txt",
                   "rates rise again");
                  ("/srv/clean_txt/Silence.txt", "")])).
Proof.
  exact (proj2 (X15_converter_writes example_env "/srv" _ _ eq_refl eq_refl)
           "Silence.VTT" ["WEBVTT"; ""]
           (or_intror (or_intror (or_intror (or_introl eq_refl))))
           eq_refl eq_refl eq_refl).
Defined.

Lemma txt_name_not_vtt (stem : string) : is_vtt (stem ++ ".txt") = false.
Proof.
  unfold is_vtt, endswith. rewrite lower_append, length_append.
  change (lower ".txt") with ".txt".
  replace (length (lower stem) + length ".txt" - length ".vtt")
    with (length (lower stem)) by (simpl; lia).
  rewrite drop_append. apply andb_false_r.
Qed.

Lemma convert_fold_no_vtt (env : os_env) (input_dir output_dir : string)
  (names : list string) (r : report) :
  forallb (fun f => negb (is_vtt f)) names = true ->
  fold_left (convert_file env input_dir output_dir) names r = r.
Proof.
  revert r; induction names as [|f names IH]; intros r H; [reflexivity|].
  simpl in H. apply andb_prop in H as [Hf Hn]. apply negb_true_iff in Hf.
  simpl. unfold convert_file at 2. unfold is_vtt in Hf. rewrite Hf.
  now apply IH.
Qed.

(** X16.  The converter passes over every file whose name ends with
    [.txt]: when the input directory holds only such files, as the fetch
    script saves them ([<video id>.txt]), it reads nothing, writes nothing
    and counts nothing. *)
Theorem X16_fetched_txt_not_converted (env : os_env) (script_dir : string)
  (video_ids : list string) :
  os_isdir env (path_join script_dir "transcripts") = true ->
  os_makedirs_raises env (path_join script_dir "clean_txt") = false ->
  os_listdir env (path_join script_dir "transcripts")
  = Some (map (fun vid => vid ++ ".txt") video_ids) ->
  main env script_dir = Finished (mkReport 0 0 0 []).
Proof.
  intros Hd Hm Hl. unfold main. rewrite Hd, Hm, Hl. cbn [negb]. f_equal.
  apply convert_fold_no_vtt. rewrite forallb_forall.
  intros f Hf. apply in_map_iff in Hf as (vid & <- & _).
  now rewrite txt_name_not_vtt.
Qed.

Lemma X16_witness :
  main (mkEnv (fun _ => true) (fun _ => false)
          (fun _ => Some (map (fun vid => vid ++ ".txt")
                            ["dQw4w9WgXcQ"; "abc123"]))
          (fun _ => Raised "unused") (fun _ => None) (fun _ _ => true))
       "/srv"
  = Finished (mkReport 0 0 0 []).
Proof.
  exact (X16_fetched_txt_not_converted
           (mkEnv (fun _ => true) (fun _ => false)
              (fun _ => Some (map (fun vid => vid ++ ".txt")
                                ["dQw4w9WgXcQ"; "abc123"]))
              (fun _ => Raised "unused") (fun _ => None) (fun _ _ => true))
           "/srv" ["dQw4w9WgXcQ"; "abc123"] eq_refl eq_refl eq_refl).
Defined.

(** ** The index builder's loop *)

Section Index.

Variable env : os_env.
Variable input_dir : string.

Lemma index_file_cases (ix : create_search_index.index) (filename : string) :
  create_search_index.index_file env input_dir ix filename
  = if indexed env input_dir filename then
      create_search_index.mkIndex
        (create_search_index.search_data ix
         ++ [record_of env input_dir filename])
        (create_search_index.file_count ix + 1)
    else ix.
Proof.
  unfold create_search_index.index_file, indexed, record_of, is_txt.
  destruct (endswith (lower filename) ".txt"); [|reflexivity]. cbn [andb].
  destruct (os_read env (path_join input_dir filename)) as [text|];
    [|reflexivity].
  destruct (negb (text =? "")); [|reflexivity].
  now destruct (extract_info_from_filename filename).
Qed.

Lemma index_fold (names : list string) (ix0 : create_search_index.index) :
  let ix := fold_left (create_search_index.index_file env input_dir) names ix0 in
  create_search_index.search_data ix
  = (create_search_index.search_data ix0
     ++ map (record_of env input_dir) (filter (indexed env input_dir) names))%list
  /\ create_search_index.file_count ix
     = create_search_index.file_count ix0
       + List.length (filter (indexed env input_dir) names).
Proof.
  cbv zeta. revert ix0; induction names as [|f names IH]; intros ix0.
  - simpl. rewrite app_nil_r. split; [reflexivity | lia].
  - cbn [fold_left filter].
    destruct (IH (create_search_index.index_file env input_dir ix0 f))
      as (H1 & H2).
    rewrite H1, H2, index_file_cases.
    destruct (indexed env input_dir f);
      cbn [create_search_index.search_data create_search_index.file_count
           map List.length];
      [rewrite <- app_assoc; split; [reflexivity | lia] | now split].
Qed.

End Index.

Lemma index_main_finished (env : os_env) (script_dir : string)
  (ix : create_search_index.index) :
  create_search_index.main env script_dir = Finished ix ->
  exists names,
    os_listdir env (path_join script_dir "clean_txt") = Some names
    /\ ix = fold_left
              (create_search_index.index_file env
                 (path_join script_dir "clean_txt"))
              names (create_search_index.mkIndex [] 0).
Proof.
  unfold create_search_index.main.
  destruct (os_isdir env (path_join script_dir "clean_txt")); [|discriminate].
  cbn [negb].
  destruct (os_listdir env (path_join script_dir "clean_txt")) as [names|];
    [|discriminate].
  intros [= <-]. now exists names.
Qed.

Lemma record_of_indexed (env : os_env) (input_dir filename : string) :
  indexed env input_dir filename = true ->
  let entry := record_of env input_dir filename in
  create_search_index.entry_text entry <> ""
  /\ os_read env (path_join input_dir filename)
     = Some (create_search_index.entry_text entry)
  /\ is_txt filename = true.
Proof.
  unfold indexed, record_of. cbv zeta.
  cbn [create_search_index.entry_text].
  destruct (is_txt filename); [|discriminate]. cbn [andb].
  destruct (os_read env (path_join input_dir filename)) as [text|];
    [|discriminate].
  intros H. apply negb_true_iff, String.eqb_neq in H. now repeat split.
Qed.

(** X17.  When the index builder reaches the end of its loop, the entries
    are, in the order of the listing, those of the files whose name ends
    with [.txt], in any case, that were read and are not empty; the count
    is their number; each entry carries the name, the text that was read,
    and the date and title derived from the name. *)
Theorem X17_index_entries (env : os_env) (script_dir : string)
  (ix : create_search_index.index) (names : list string) :
  create_search_index.main env script_dir = Finished ix ->
  os_listdir env (path_join script_dir "clean_txt") = Some names ->
  let input_dir := path_join script_dir "clean_txt" in
  let entries := create_search_index.search_data ix in
  create_search_index.file_count ix = List.length entries
  /\ map create_search_index.entry_filename entries
     = filter (indexed env input_dir) names
  /\ (forall entry,
         In entry entries ->
         let filename := create_search_index.entry_filename entry in
         create_search_index.entry_text entry <> ""
         /\ os_read env (path_join input_dir filename)
            = Some (create_search_index.entry_text entry)
         /\ (create_search_index.entry_date entry,
             create_search_index.entry_title entry)
            = extract_info_from_filename filename
         /\ is_txt filename = true
         /\ In filename names).
Proof.
  intros H HL. cbv zeta.
  destruct (index_main_finished env script_dir ix H) as (names' & HL' & ->).
  rewrite HL in HL'. injection HL' as <-.
  destruct (index_fold env (path_join script_dir "clean_txt") names
              (create_search_index.mkIndex [] 0)) as (H1 & H2).
  cbn [create_search_index.search_data create_search_index.file_count app] in H1, H2.
  rewrite H1, H2. split; [now rewrite length_map|]. split.
  - rewrite map_map. cbn [record_of create_search_index.entry_filename].
    apply map_id.
  - intros entry Hin. apply in_map_iff in Hin as (f & <- & Hf).
    apply filter_In in Hf as [Hf Hi].
    destruct (record_of_indexed env _ f Hi) as (Ht & Hr & Hx).
    cbn [record_of create_search_index.entry_filename
         create_search_index.entry_date create_search_index.entry_title].
    repeat split; try assumption.
    now destruct (extract_info_from_filename f).
Qed.

Lemma X17_witness :
  create_search_index.main example_env "/srv"
  = Finished
      (create_search_index.mkIndex
         [create_search_index.mkRecord "TheMoneyGPS_20240102_Rates_Rise.txt"
            "2024-01-02" "Rates Rise" "rates rise again";
          create_search_index.mkRecord "notes.TXT" "Unknown Date" "notes"
            "to do"]
         2)
  /\ 2 = List.length
           (create_search_index.search_data
              (create_search_index.mkIndex
                 [create_search_index.mkRecord
                    "TheMoneyGPS_20240102_Rates_Rise.txt"
                    "2024-01-02" "Rates Rise" "rates rise again";
                  create_search_index.mkRecord "notes.TXT" "Unknown Date"
                    "notes" "to do"]
                 2)).
Proof.
  split; [reflexivity|].
  exact (proj1 (X17_index_entries example_env "/srv" _ _ eq_refl eq_refl)).
Defined.

(** X18.  From normaliser to index: a text file that holds the text of a
    document gets an entry exactly when the document has an accepted
    segment; the entry carries that text.  A document without segments,
    written as an empty file, leaves the index as it is. *)
Theorem X18_indexed_iff_segments (env : os_env) (input_dir filename : string)
  (ix : create_search_index.index) (lines : list string) :
  is_txt filename = true ->
  os_read env (path_join input_dir filename) = Some (clean_lines lines) ->
  (segments lines = [] ->
   create_search_index.index_file env input_dir ix filename = ix)
  /\ (segments lines <> [] ->
      create_search_index.index_file env input_dir ix filename
      = create_search_index.mkIndex
          (create_search_index.search_data ix
           ++ [create_search_index.mkRecord filename
                 (fst (extract_info_from_filename filename))
                 (snd (extract_info_from_filename filename))
                 (clean_lines lines)])
          (create_search_index.file_count ix + 1)).
Proof.
  intros Hx Hr. rewrite index_file_cases. unfold indexed, record_of.
  rewrite Hx, Hr. cbn [andb]. split.
  - intros Hs. unfold clean_lines. rewrite Hs. reflexivity.
  - intros Hs. apply text_nonempty in Hs. apply String.eqb_neq in Hs.
    now rewrite Hs.
Qed.

Lemma X18_witness :
  create_search_index.index_file example_env "/srv/clean_txt"
    (create_search_index.mkIndex [] 0) "Silence.txt"
  = create_search_index.mkIndex [] 0.
Proof.
  exact (proj1 (X18_indexed_iff_segments example_env "/srv/clean_txt"
                  "Silence.txt" (create_search_index.mkIndex [] 0)
                  ["WEBVTT"; ""] eq_refl eq_refl) eq_refl).
Defined.



